(** * colosseum.validators: a shallow embedding and its properties

    The module [colosseum/validators.py] holds the value validators of the
    CSS declaration layer: [is_number], [is_integer], [is_length],
    [is_percentage], [is_color] and [is_border_spacing], all of which either
    return a normalised value or raise.  Python values are embedded as the
    inductive type [pyval]; a call is a function into [result], whose
    [Raise] branch carries the class of the exception and its [str()].

    The builtins that the validators call ([int], [float], [str.format],
    [str.split], [str.strip], the comparisons of numbers) are embedded as
    CPython 3.9 has them, the last interpreter on which the import of
    [Sequence] from [collections] succeeds.  Strings are modelled over the
    first 256 code points (one [ascii] per character).  A [float] is an
    IEEE 754 binary64 value in the representation of [SpecFloat]; the two
    conversions between floats and text are taken through the class
    [FloatText], of which [cpython.float_text] is the interpreter's.

    The parsers of units and colours live in [colosseum/parser.py] and are
    taken through the class [parser.Parser]: the properties hold for every
    parser. *)

From Stdlib Require Import ZArith String Ascii List Bool Lia.
From Stdlib Require Import SpecFloat DecimalString Sorted Permutation.
From Stdlib Require Import Decimal DecimalPos DecimalZ.
Import ListNotations.

Local Open Scope string_scope.
Local Open Scope Z_scope.

Set Warnings "-register-all".

(* ===================================================================== *)
(** ** Exceptions and results                                             *)
(* ===================================================================== *)

(** The exception classes that occur.  [ValidationError] is the class that
    validators.py declares; the others are built in. *)
Inductive exn_class :=
| Exception
| ArithmeticError
| OverflowError
| AttributeError
| LookupError
| KeyError
| TypeError
| ValueError
| ValidationError.          (* class ValidationError(ValueError): pass *)

(** The direct base class. *)
Definition base_class (c : exn_class) : option exn_class :=
  match c with
  | Exception => None
  | ArithmeticError => Some Exception
  | OverflowError => Some ArithmeticError
  | AttributeError => Some Exception
  | LookupError => Some Exception
  | KeyError => Some LookupError
  | TypeError => Some Exception
  | ValueError => Some Exception
  | ValidationError => Some ValueError
  end.

Definition exn_class_eqb (c d : exn_class) : bool :=
  match c, d with
  | Exception, Exception | ArithmeticError, ArithmeticError
  | OverflowError, OverflowError | AttributeError, AttributeError
  | LookupError, LookupError | KeyError, KeyError
  | TypeError, TypeError | ValueError, ValueError
  | ValidationError, ValidationError => true
  | _, _ => false
  end.

(** [issubclass c d]: [d] is reached from [c] along [base_class]; the
    hierarchy is at most three classes deep. *)
Fixpoint issubclass_fuel (fuel : nat) (c d : exn_class) : bool :=
  exn_class_eqb c d ||
  match fuel, base_class c with
  | S k, Some b => issubclass_fuel k b d
  | _, _ => false
  end.

Definition issubclass : exn_class -> exn_class -> bool := issubclass_fuel 3.

(** A raised exception: its class and what [str(error)] gives. *)
Record pyexn := mk_exn { exn_type : exn_class; exn_str : string }.

Inductive result (A : Type) :=
| Return (a : A)
| Raise (e : pyexn).
Arguments Return {A} a.
Arguments Raise {A} e.

Definition bind {A B} (r : result A) (k : A -> result B) : result B :=
  match r with
  | Return a => k a
  | Raise e => Raise e
  end.

(** [try: r  except cls as error: h error] *)
Definition try_except {A} (r : result A) (cls : list exn_class)
    (h : pyexn -> result A) : result A :=
  match r with
  | Return a => Return a
  | Raise e =>
      if existsb (issubclass (exn_type e)) cls then h e else Raise e
  end.

Declare Scope py_scope.
Delimit Scope py_scope with py.
Notation "x <- r ;; k" := (bind r (fun x => k))
  (at level 61, r at next level, right associativity) : py_scope.
Notation "r ;; k" := (bind r (fun _ => k))
  (at level 61, right associativity) : py_scope.
Notation "'try' r 'except' cls 'as' e '=>' h" :=
  (try_except r cls (fun e => h))
  (at level 61, r at next level, cls at next level, e name,
   right associativity) : py_scope.
Local Open Scope py_scope.

Definition raise {A} (c : exn_class) (msg : string) : result A :=
  Raise (mk_exn c msg).

(* ===================================================================== *)
(** ** Values                                                             *)
(* ===================================================================== *)

Definition float := spec_float.

(** Modelled from the spec: the value classes of the collaborator modules
    [units] and [colors], which validators.py only receives, tests with
    [isinstance] and formats.  The spec asks the unit parser to return a
    length value or a percentage value and the colour parser a colour value;
    none of them is a sequence, a number or a string. *)
Inductive pyclass := Unit | Percent | Color.

Record pyobject := mk_object {
  ob_type : pyclass;
  ob_str : string;                (* str(obj) *)
  ob_repr : string                (* repr(obj) *)
}.

Inductive pyval :=
| PyNone
| PyBool (b : bool)
| PyInt (z : Z)
| PyFloat (f : float)
| PyStr (s : string)
| PyTuple (items : list pyval)
| PyList (items : list pyval)
| PyDict (entries : list (pyval * pyval))
| PyObj (o : pyobject).

(** What the builtin [int] and [float] return, and what bounds are. *)
Inductive pynum :=
| NInt (z : Z)
| NFloat (f : float).

Definition num_to_val (n : pynum) : pyval :=
  match n with
  | NInt z => PyInt z
  | NFloat f => PyFloat f
  end.

Definition class_name (c : pyclass) : string :=
  match c with
  | Unit => "Unit"
  | Percent => "Percent"
  | Color => "Color"
  end.

(** [type(v).__name__] *)
Definition type_name (v : pyval) : string :=
  match v with
  | PyNone => "NoneType"
  | PyBool _ => "bool"
  | PyInt _ => "int"
  | PyFloat _ => "float"
  | PyStr _ => "str"
  | PyTuple _ => "tuple"
  | PyList _ => "list"
  | PyDict _ => "dict"
  | PyObj o => class_name (ob_type o)
  end.

(** [isinstance(v, units.Percent)] *)
Definition isinstance_Percent (v : pyval) : bool :=
  match v with
  | PyObj o => match ob_type o with Percent => true | _ => false end
  | _ => false
  end.

(** [isinstance(v, Sequence) and not isinstance(v, str)]: of the values
    modelled, tuples and lists. *)
Definition sequence_items (v : pyval) : option (list pyval) :=
  match v with
  | PyTuple items | PyList items => Some items
  | _ => None
  end.

(** [isinstance(v, (int, float))]; [bool] is a subclass of [int]. *)
Definition isinstance_int_float (v : pyval) : bool :=
  match v with
  | PyBool _ | PyInt _ | PyFloat _ => true
  | _ => false
  end.

(* ===================================================================== *)
(** ** Text                                                               *)
(* ===================================================================== *)

Definition code (c : ascii) : Z := Z.of_N (N_of_ascii c).

(** [c.isspace()] below code point 256. *)
Definition isspace (c : ascii) : bool :=
  let n := code c in
  ((9 <=? n) && (n <=? 13)) || ((28 <=? n) && (n <=? 32))
  || (n =? 133) || (n =? 160).

Definition isdigit (c : ascii) : bool :=
  let n := code c in (48 <=? n) && (n <=? 57).

(** The whitespace that [int] and [float] skip around a literal:
    [c.isspace()] without the separators 0x1c to 0x1f. *)
Definition isspace_number (c : ascii) : bool :=
  let n := code c in
  ((9 <=? n) && (n <=? 13)) || (n =? 32) || (n =? 133) || (n =? 160).

Fixpoint lstrip (space : ascii -> bool) (s : string) : string :=
  match s with
  | String c rest => if space c then lstrip space rest else s
  | EmptyString => EmptyString
  end.

Fixpoint rstrip (space : ascii -> bool) (s : string) : string :=
  match s with
  | String c rest =>
      match rstrip space rest with
      | EmptyString => if space c then EmptyString else String c EmptyString
      | kept => String c kept
      end
  | EmptyString => EmptyString
  end.

(** [s.strip()] *)
Definition strip (s : string) : string := rstrip isspace (lstrip isspace s).

(** The literal that [int(s)] and [float(s)] read in [s]. *)
Definition strip_number (s : string) : string :=
  rstrip isspace_number (lstrip isspace_number s).

(** [s.split()]: the maximal runs of characters that are not whitespace. *)
Fixpoint split (s : string) : list string :=
  match s with
  | EmptyString => []
  | String c rest =>
      if isspace c then split rest
      else
        match rest with
        | EmptyString => [String c EmptyString]
        | String d _ =>
            if isspace d then String c EmptyString :: split rest
            else
              match split rest with
              | tok :: toks => String c tok :: toks
              | [] => [String c EmptyString]
              end
        end
  end.

(** [c.lower()] below code point 256. *)
Definition lower_char (c : ascii) : ascii :=
  let n := code c in
  if ((65 <=? n) && (n <=? 90))
     || ((192 <=? n) && (n <=? 222) && negb (n =? 215))
  then ascii_of_N (Z.to_N (n + 32)) else c.

Fixpoint lower (s : string) : string :=
  match s with
  | EmptyString => EmptyString
  | String c rest => String (lower_char c) (lower rest)
  end.

Fixpoint contains (c : ascii) (s : string) : bool :=
  match s with
  | EmptyString => false
  | String d rest => Ascii.eqb c d || contains c rest
  end.

Fixpoint join (sep : string) (parts : list string) : string :=
  match parts with
  | [] => ""
  | [p] => p
  | p :: rest => p ++ sep ++ join sep rest
  end.

(** [str(z)] for an int. *)
Definition int_str (z : Z) : string := NilZero.string_of_int (Z.to_int z).

Definition hex_digit (n : Z) : ascii :=
  ascii_of_N (Z.to_N (if n <? 10 then 48 + n else 87 + n)).

Definition squote : ascii := ascii_of_N 39.
Definition dquote : ascii := ascii_of_N 34.

(** One character of [repr(s)], [q] being the quote chosen. *)
Definition repr_char (q c : ascii) : string :=
  let n := code c in
  if Ascii.eqb c q || (n =? 92) then String "\" (String c "")
  else if n =? 9 then "\t"
  else if n =? 10 then "\n"
  else if n =? 13 then "\r"
  else if (n <? 32) || ((127 <=? n) && (n <=? 160)) || (n =? 173) then
    String "\" (String "x"
      (String (hex_digit (n / 16)) (String (hex_digit (n mod 16)) "")))
  else String c "".

Fixpoint repr_chars (q : ascii) (s : string) : string :=
  match s with
  | EmptyString => ""
  | String c rest => repr_char q c ++ repr_chars q rest
  end.

(** [repr(s)] for a str: single quotes unless the text has a single quote
    and no double quote. *)
Definition str_repr (s : string) : string :=
  let q := if contains squote s && negb (contains dquote s)
           then dquote else squote in
  String q (repr_chars q s) ++ String q "".

(* ===================================================================== *)
(** ** Numbers                                                            *)
(* ===================================================================== *)

(** A float as an extended dyadic number: [Dyadic m e] is [m * 2^e]. *)
Inductive dyadic :=
| DNaN
| DInf (negative : bool)
| Dyadic (m e : Z).

Definition float_value (f : float) : dyadic :=
  match f with
  | S754_nan => DNaN
  | S754_infinity s => DInf s
  | S754_zero _ => Dyadic 0 0
  | S754_finite s m e => Dyadic (if s then Z.neg m else Z.pos m) e
  end.

Definition num_dyadic (n : pynum) : dyadic :=
  match n with
  | NInt z => Dyadic z 0
  | NFloat f => float_value f
  end.

(** The exact order of two numbers; [None] when one of them is NaN.  Python
    compares an int with a float by value, without rounding the int. *)
Definition dyadic_compare (a b : dyadic) : option comparison :=
  match a, b with
  | DNaN, _ | _, DNaN => None
  | DInf s, DInf t =>
      Some (match s, t with
            | true, false => Lt
            | false, true => Gt
            | _, _ => Eq
            end)
  | DInf s, Dyadic _ _ => Some (if s then Lt else Gt)
  | Dyadic _ _, DInf t => Some (if t then Gt else Lt)
  | Dyadic m1 e1, Dyadic m2 e2 =>
      let e := Z.min e1 e2 in
      Some (Z.shiftl m1 (e1 - e) ?= Z.shiftl m2 (e2 - e))
  end.

(** [a < b] and [a > b] on numbers. *)
Definition num_lt (a b : pynum) : bool :=
  match dyadic_compare (num_dyadic a) (num_dyadic b) with
  | Some Lt => true
  | _ => false
  end.

Definition num_gt (a b : pynum) : bool :=
  match dyadic_compare (num_dyadic a) (num_dyadic b) with
  | Some Gt => true
  | _ => false
  end.

(** [math.trunc] of a finite float: rounding toward zero. *)
Definition float_trunc (f : float) : option Z :=
  match f with
  | S754_nan | S754_infinity _ => None
  | S754_zero _ => Some 0
  | S754_finite s m e =>
      let a := if 0 <=? e then Z.shiftl (Z.pos m) e
               else Z.shiftr (Z.pos m) (- e) in
      Some (if s then - a else a)
  end.

(** The binary64 nearest to an int (ties to even); an infinity when the int
    is out of range. *)
Definition float_of_Z (z : Z) : float := binary_normalize 53 1024 z 0 false.

(* ===================================================================== *)
(** ** The interpreter's builtins                                         *)
(* ===================================================================== *)

(** The text forms of floats: [float(s)] on a str ([None] when the text is
    not a float literal) and [repr(f)].  Both belong to the interpreter. *)
Class FloatText := {
  float_of_string : string -> option float;
  float_repr : float -> string
}.

(** The digits of an int literal in base 10, single underscores allowed
    between digits. *)
Fixpoint parse_digits (s : string) (acc : Z) (after_digit : bool)
    : option Z :=
  match s with
  | EmptyString => if after_digit then Some acc else None
  | String c rest =>
      if isdigit c then parse_digits rest (10 * acc + (code c - 48)) true
      else if Ascii.eqb c "_" && after_digit then parse_digits rest acc false
      else None
  end.

(** An optional sign: whether it is a minus, and the rest. *)
Definition scan_sign (s : string) : bool * string :=
  match s with
  | String c rest =>
      if Ascii.eqb c "-" then (true, rest)
      else if Ascii.eqb c "+" then (false, rest)
      else (false, s)
  | EmptyString => (false, s)
  end.

(** [int(s)] on a str: surrounding whitespace, an optional sign, digits. *)
Definition int_of_string (s : string) : option Z :=
  let (negative, digits) := scan_sign (strip_number s) in
  option_map (fun z => if negative then - z else z)
             (parse_digits digits 0 false).

Definition Z_of_bool (b : bool) : Z := if b then 1 else 0.

(** [int(v)] *)
Definition py_int (v : pyval) : result Z :=
  match v with
  | PyBool b => Return (Z_of_bool b)
  | PyInt z => Return z
  | PyFloat f =>
      match float_trunc f, f with
      | Some z, _ => Return z
      | None, S754_nan =>
          raise ValueError "cannot convert float NaN to integer"
      | None, _ =>
          raise OverflowError "cannot convert float infinity to integer"
      end
  | PyStr s =>
      match int_of_string s with
      | Some z => Return z
      | None =>
          raise ValueError
            ("invalid literal for int() with base 10: " ++ str_repr s)
      end
  | _ =>
      raise TypeError
        ("int() argument must be a string, a bytes-like object or a number, not '"
         ++ type_name v ++ "'")
  end.

Section Interpreter.
Context {float_text : FloatText}.

(** [float(z)] for an int *)
Definition float_of_int (z : Z) : result float :=
  match float_of_Z z with
  | S754_infinity _ =>
      raise OverflowError "int too large to convert to float"
  | f => Return f
  end.

(** [float(v)] *)
Definition py_float (v : pyval) : result float :=
  match v with
  | PyBool b => float_of_int (Z_of_bool b)
  | PyInt z => float_of_int z
  | PyFloat f => Return f
  | PyStr s =>
      match float_of_string s with
      | Some f => Return f
      | None =>
          raise ValueError
            ("could not convert string to float: " ++ str_repr s)
      end
  | _ =>
      raise TypeError
        ("float() argument must be a string or a number, not '"
         ++ type_name v ++ "'")
  end.

(** [repr(v)] *)
Fixpoint py_repr (v : pyval) : string :=
  match v with
  | PyNone => "None"
  | PyBool b => if b then "True" else "False"
  | PyInt z => int_str z
  | PyFloat f => float_repr f
  | PyStr s => str_repr s
  | PyTuple items =>
      match items with
      | [x] => "(" ++ py_repr x ++ ",)"
      | _ => "(" ++ join ", " (map py_repr items) ++ ")"
      end
  | PyList items => "[" ++ join ", " (map py_repr items) ++ "]"
  | PyDict entries =>
      "{" ++ join ", "
               (map (fun kv : pyval * pyval => let (k, x) := kv in
                  py_repr k ++ ": " ++ py_repr x) entries)
          ++ "}"
  | PyObj o => ob_repr o
  end.

(** [str(v)], which is also what [{}] in [str.format] puts. *)
Definition py_str (v : pyval) : string :=
  match v with
  | PyStr s => s
  | PyObj o => ob_str o
  | _ => py_repr v
  end.

Definition num_str (n : pynum) : string := py_str (num_to_val n).

(** [value.split()]: only a str has the method. *)
Definition py_split (value : pyval) : result (list string) :=
  match value with
  | PyStr s => Return (split s)
  | _ =>
      raise AttributeError
        ("'" ++ type_name value ++ "' object has no attribute 'split'")
  end.

(** The two types handed to [_numeric_validator]: the builtins [float]
    and [int], each with its [__name__] and its call. *)
Inductive numeric_type := py_float_type | py_int_type.

Definition __name__ (t : numeric_type) : string :=
  match t with
  | py_float_type => "float"
  | py_int_type => "int"
  end.

Definition coerce (t : numeric_type) (v : pyval) : result pynum :=
  match t with
  | py_float_type => f <- py_float v ;; Return (NFloat f)
  | py_int_type => z <- py_int v ;; Return (NInt z)
  end.

End Interpreter.

(* ===================================================================== *)
(** ** The collaborator: colosseum.parser                                 *)
(* ===================================================================== *)

(** The unit parser and the colour parser, outside validators.py: each
    returns a parsed value or raises. *)
Module parser.
Class Parser := {
  units : pyval -> result pyval;
  color : pyval -> result pyval
}.
End parser.

(* ===================================================================== *)
(** ** validators.py                                                      *)
(* ===================================================================== *)

(** What a call of [is_number] or [is_integer] returns: the checked value
    (or the exception raised), or the inner function [validator]. *)
Inductive outcome :=
| Checked (r : result pyval)
| Validator (validator : pyval -> result pyval).

Section Validators.
Context {float_text : FloatText} {collaborator : parser.Parser}.

(** The bounds are numbers, as the range checks of the docstrings have
    them; [None] is a bound that is not given. *)
Definition _numeric_validator (num_value : pyval)
    (numeric_type : numeric_type) (min_value max_value : option pynum)
    : result pyval :=
  num <- (try coerce numeric_type num_value
          except [ValueError; TypeError] as _error =>
            raise ValidationError
              ("Cannot coerce " ++ py_str num_value ++ " to "
               ++ __name__ numeric_type)) ;;
  match min_value with
  | Some lo =>
      if num_lt num lo then
        raise ValidationError
          ("Value " ++ num_str num ++ " below minimum value "
           ++ num_str lo)
      else Return tt
  | None => Return tt
  end ;;
  match max_value with
  | Some hi =>
      if num_gt num hi then
        raise ValidationError
          ("Value " ++ num_str num ++ " above maximum value "
           ++ num_str hi)
      else Return tt
  | None => Return tt
  end ;;
  Return (num_to_val num).

(** [is_number(value=None, min_value=None, max_value=None)] *)
Definition is_number (value : pyval) (min_value max_value : option pynum)
    : outcome :=
  let validator := fun num_value =>
    _numeric_validator num_value py_float_type min_value max_value in
  match min_value, max_value with
  | None, None => Checked (validator value)
  | _, _ => Validator validator
  end.

(** [is_integer(value=None, min_value=None, max_value=None)] *)
Definition is_integer (value : pyval) (min_value max_value : option pynum)
    : outcome :=
  let validator := fun num_value =>
    _numeric_validator num_value py_int_type min_value max_value in
  match min_value, max_value with
  | None, None => Checked (validator value)
  | _, _ => Validator validator
  end.

Definition is_length (value : pyval) : result pyval :=
  value <- (try parser.units value
            except [ValueError] as error =>
              raise ValidationError (exn_str error)) ;;
  Return value.

Definition is_percentage (value : pyval) : result pyval :=
  value <- (try parser.units value
            except [ValueError] as error =>
              raise ValidationError (exn_str error)) ;;
  if negb (isinstance_Percent value) then
    raise ValidationError
      ("Value " ++ py_str value ++ " is not a Percent unit")
  else Return value.

Definition is_color (value : pyval) : result pyval :=
  value <- (try parser.color value
            except [ValueError] as error =>
              raise ValidationError (exn_str error)) ;;
  Return value.

(** The first three branches of [is_border_spacing]: the values to read
    lengths from. *)
Definition border_spacing_values (value : pyval) : result (list pyval) :=
  match sequence_items value with
  | Some items => Return items
  | None =>
      if isinstance_int_float value then Return [value]
      else
        parts <- py_split value ;;
        Return (map (fun x => PyStr (strip x)) parts)
  end.

Definition is_border_spacing (value : pyval) : result pyval :=
  values <- border_spacing_values value ;;
  match values with
  | [v0] =>                                     (* len(values) == 1 *)
      try (horizontal <- is_length v0 ;;
           Return (PyTuple [horizontal]))
      except [ValueError] as error =>
        raise ValidationError (exn_str error)
  | [v0; v1] =>                                 (* len(values) == 2 *)
      try (horizontal <- is_length v0 ;;
           vertical <- is_length v1 ;;
           Return (PyTuple [horizontal; vertical]))
      except [ValueError] as error =>
        raise ValidationError (exn_str error)
  | _ => raise ValidationError "Should provide 1 or 2 <length> values!"
  end.

End Validators.

(** The module-level functions as objects: each carries the attribute
    [description] that the module assigns after the [def]. *)
Inductive validator_function :=
| fn_is_number
| fn_is_integer
| fn_is_length
| fn_is_percentage
| fn_is_color
| fn_is_border_spacing.

Definition description (f : validator_function) : string :=
  match f with
  | fn_is_number => "<number>"
  | fn_is_integer => "<integer>"
  | fn_is_length => "<length>"
  | fn_is_percentage => "<percentage>"
  | fn_is_color => "<color>"
  | fn_is_border_spacing => "<length> <length>?"
  end.

(** [f(value)]: the call with one positional argument.  For [is_number] and
    [is_integer] no bound is given then, and the call returns what the inner
    validator returns on [value] ([call_numeric] below). *)
Definition call {float_text : FloatText} {collaborator : parser.Parser}
    (f : validator_function) (value : pyval) : result pyval :=
  match f with
  | fn_is_number => _numeric_validator value py_float_type None None
  | fn_is_integer => _numeric_validator value py_int_type None None
  | fn_is_length => is_length value
  | fn_is_percentage => is_percentage value
  | fn_is_color => is_color value
  | fn_is_border_spacing => is_border_spacing value
  end.

(** The check that a call of [is_number] or [is_integer] stands for: the
    one already made, or the one the returned validator makes on the value
    supplied later. *)
Definition run (o : outcome) (later : pyval) : result pyval :=
  match o with
  | Checked r => r
  | Validator validator => validator later
  end.

Definition bounds_given (min_value max_value : option pynum) : bool :=
  match min_value, max_value with
  | None, None => false
  | _, _ => true
  end.

(* ===================================================================== *)
(** ** Choices and the property set (constants.py, declaration.py)        *)
(* ===================================================================== *)

Fixpoint insert_sorted (x : string) (l : list string) : list string :=
  match l with
  | [] => [x]
  | y :: rest =>
      if String.leb x y then x :: l else y :: insert_sorted x rest
  end.

(** [sorted(l)] on strings: by code point. *)
Definition sorted (l : list string) : list string :=
  fold_right insert_sorted [] l.

(** Modelled from the spec: a literal constant of a Choices, which
    constants.py declares.  The spec names [None] and keywords with a string
    form (such as [a], [initial]); [None] contributes the token [none]. *)
Inductive constant :=
| const_None
| const_keyword (name : string).

(** Modelled from the spec: the value that a constant stands for
    (constants.py). *)
Definition constant_value (c : constant) : pyval :=
  match c with
  | const_None => PyNone
  | const_keyword name => PyStr name
  end.

(** Modelled from the spec: the token of a constant in the list of legal
    forms (constants.py). *)
Definition constant_token (c : constant) : string :=
  match c with
  | const_None => "none"
  | const_keyword name => name
  end.

(** Modelled from the spec: the class Choices of constants.py, the legal
    values of one property: literal constants, validators in order, and
    the explicit defaulting constants. *)
Record Choices := mk_Choices {
  constants : list constant;
  validators : list validator_function;
  explicit_defaulting_constants : list constant
}.

(** Modelled from the spec: the legal forms of a Choices (constants.py),
    sorted alphabetically and joined; a validator contributes its
    [description]. *)
Definition Choices_str (choices : Choices) : string :=
  join ", "
    (sorted (map constant_token (constants choices)
             ++ map description (validators choices)
             ++ map constant_token (explicit_defaulting_constants choices))).

(** Modelled from the spec: a value equals a constant, or is a string that
    equals its string form without regard to case (constants.py). *)
Definition constant_matches (value : pyval) (c : constant) : bool :=
  match value, c with
  | PyNone, const_None => true
  | PyStr s, _ => String.eqb (lower s) (lower (constant_token c))
  | _, _ => false
  end.

Section Declaration.
Context {float_text : FloatText} {collaborator : parser.Parser}.

(** Modelled from the spec: the validators of a Choices tried in order,
    the first success winning (Choices.validate of constants.py). *)
Fixpoint first_success (fs : list validator_function) (value : pyval)
    (otherwise : result pyval) : result pyval :=
  match fs with
  | [] => otherwise
  | f :: rest =>
      try call f value
      except [ValueError] as _error => first_success rest value otherwise
  end.

(** Modelled from the spec: Choices.validate of constants.py.  Constants
    and defaulting constants first (a match resolves to the constant),
    then the validators; when nothing matches, a ValidationError that
    lists the legal forms. *)
Definition Choices_validate (choices : Choices) (value : pyval)
    : result pyval :=
  match find (constant_matches value)
             (constants choices ++ explicit_defaulting_constants choices)
  with
  | Some c => Return (constant_value c)
  | None =>
      first_success (validators choices) value
        (raise ValidationError (Choices_str choices))
  end.

(** Modelled from the spec: the set contract of validated_property
    (declaration.py) up to the validation: a failure of the Choices is
    raised again with the name of the property, in the format of the
    spec. *)
Definition validated_property_set (name : string) (choices : Choices)
    (value : pyval) : result pyval :=
  try Choices_validate choices value
  except [ValueError] as _error =>
    raise ValidationError
      ("Invalid value '" ++ py_str value ++ "' for CSS property '" ++ name
       ++ "'; Valid values are: " ++ Choices_str choices).

End Declaration.

(** The Choices of the test [test_all_choices]. *)
Definition all_choices : Choices :=
  {| constants := [const_keyword "a"; const_keyword "b"; const_None];
     validators := [fn_is_integer; fn_is_number; fn_is_length;
                    fn_is_percentage; fn_is_color];
     explicit_defaulting_constants :=
       [const_keyword "initial"; const_keyword "inherit";
        const_keyword "unset"; const_keyword "revert"] |}.

(* ===================================================================== *)
(** ** CPython's text forms of floats                                     *)
(* ===================================================================== *)

Module cpython.

(** The binary64 nearest to [n / d] (ties to even), with sign [s]. *)
Definition round_ratio (s : bool) (n d : Z) : float :=
  match n, d with
  | Z.pos n, Z.pos d =>
      SFdiv 53 1024 (S754_finite s n 0) (S754_finite false d 0)
  | _, _ => S754_zero s
  end.

(** The binary64 nearest to [m * 10^k]. *)
Definition round_decimal (s : bool) (m k : Z) : float :=
  if 0 <=? k then round_ratio s (m * 10 ^ k) 1
  else round_ratio s m (10 ^ (- k)).

(** A maximal run of digits, single underscores between digits allowed:
    the number read, how many digits, and the rest. *)
Fixpoint scan_digits (s : string) (acc count : Z) : Z * Z * string :=
  match s with
  | String c rest =>
      if isdigit c then scan_digits rest (10 * acc + (code c - 48)) (count + 1)
      else
        match rest with
        | String d _ =>
            if Ascii.eqb c "_" && (0 <? count) && isdigit d
            then scan_digits rest acc count
            else (acc, count, s)
        | EmptyString => (acc, count, s)
        end
  | EmptyString => (acc, count, s)
  end.

Definition scan_exponent (s : string) : option Z :=
  match s with
  | EmptyString => Some 0
  | String c rest =>
      if Ascii.eqb c "e" || Ascii.eqb c "E" then
        let (neg, digits) := scan_sign rest in
        match scan_digits digits 0 0 with
        | (ex, n, EmptyString) =>
            if 0 <? n then Some (if neg then - ex else ex) else None
        | _ => None
        end
      else None
  end.

Definition digits10 (z : Z) : Z := Z.of_nat (String.length (int_str z)).

(** The float that the decimal [m * 10^k] reads as. *)
Definition decimal_value (s : bool) (m k : Z) : float :=
  if m =? 0 then S754_zero s
  else if 310 <? digits10 m + k then S754_infinity s
  else if digits10 m + k <? -330 then S754_zero s
  else round_decimal s m k.

Definition float_literal (text : string) : option float :=
  let (neg, body) := scan_sign (strip_number text) in
  let name := lower body in
  if String.eqb name "inf" || String.eqb name "infinity"
  then Some (S754_infinity neg)
  else if String.eqb name "nan" then Some S754_nan
  else
    let '(ip, ni, r1) := scan_digits body 0 0 in
    let '(m, nf, r2) :=
      match r1 with
      | String "." frac => scan_digits frac ip 0
      | _ => (ip, 0, r1)
      end in
    if ni + nf =? 0 then None
    else option_map (fun ex => decimal_value neg m (ex - nf))
                    (scan_exponent r2).

Definition float_eqb (a b : float) : bool :=
  match a, b with
  | S754_finite s m e, S754_finite t n f =>
      Bool.eqb s t && Pos.eqb m n && (e =? f)
  | S754_zero s, S754_zero t => Bool.eqb s t
  | S754_infinity s, S754_infinity t => Bool.eqb s t
  | S754_nan, S754_nan => true
  | _, _ => false
  end.

(** [p] with [10^(p-1) <= n/d < 10^p], for positive [n] and [d]. *)
Definition decimal_point (n d : Z) : Z :=
  let p := digits10 n - digits10 d in
  if (if 0 <=? p then d * 10 ^ p <=? n else d <=? n * 10 ^ (- p))
  then p + 1 else p.

(** The decimal of [count] digits that reads back as [x] and is nearest to
    [n/d], as (digits, decimal point), if there is one. *)
Definition digits_of_length (x : float) (n d p count : Z) : option (Z * Z) :=
  let num := n * 10 ^ Z.max (count - p) 0 in
  let den := d * 10 ^ Z.max (p - count) 0 in
  let q := num / den in
  let r := num mod den in
  let reads m := float_eqb (decimal_value false m (p - count)) x in
  let pick m := if m =? 10 ^ count then Some (1, p + 1) else Some (m, p) in
  match reads q, reads (q + 1) with
  | true, true =>
      match 2 * r ?= den with
      | Lt => pick q
      | Gt => pick (q + 1)
      | Eq => if Z.even q then pick q else pick (q + 1)
      end
  | true, false => pick q
  | false, true => pick (q + 1)
  | false, false => None
  end.

Fixpoint shortest_from (x : float) (n d p count : Z) (fuel : nat) : Z * Z :=
  match fuel with
  | O => (0, p)
  | S k =>
      match digits_of_length x n d p count with
      | Some r => r
      | None => shortest_from x n d p (count + 1) k
      end
  end.

Fixpoint drop_zeros (fuel : nat) (m : Z) : Z :=
  match fuel with
  | O => m
  | S k => if (m mod 10 =? 0) && negb (m =? 0) then drop_zeros k (m / 10) else m
  end.

(** The shortest digits that read back as the positive float [m * 2^e],
    with the decimal point: the value is 0.digits * 10^point. *)
Definition shortest_digits (m : positive) (e : Z) : Z * Z :=
  let x := binary_normalize 53 1024 (Z.pos m) e false in
  let n := Z.shiftl (Z.pos m) (Z.max e 0) in
  let d := Z.shiftl 1 (Z.max (- e) 0) in
  let (digits, p) := shortest_from x n d (decimal_point n d) 1 17 in
  (drop_zeros 17 digits, p).

Fixpoint zeros (n : nat) : string :=
  match n with
  | O => ""
  | S k => String "0" (zeros k)
  end.

Definition substring_from (n : nat) (s : string) : string :=
  substring n (String.length s - n) s.

(** [repr] of the digits: fixed notation for a decimal point in -3..16,
    otherwise exponent notation. *)
Definition format_short (digits p : Z) : string :=
  let ds := int_str digits in
  let n := Z.of_nat (String.length ds) in
  if (-4 <? p) && (p <=? 16) then
    if p <=? 0 then "0." ++ zeros (Z.to_nat (- p)) ++ ds
    else if n <=? p then ds ++ zeros (Z.to_nat (p - n)) ++ ".0"
    else substring 0 (Z.to_nat p) ds ++ "." ++ substring_from (Z.to_nat p) ds
  else
    let ex := p - 1 in
    substring 0 1 ds
    ++ (if 1 <? n then "." ++ substring_from 1 ds else "")
    ++ "e" ++ (if ex <? 0 then "-" else "+")
    ++ (if Z.abs ex <? 10 then "0" else "") ++ int_str (Z.abs ex).

Definition repr_float (f : float) : string :=
  match f with
  | S754_nan => "nan"
  | S754_infinity s => if s then "-inf" else "inf"
  | S754_zero s => if s then "-0.0" else "0.0"
  | S754_finite s m e =>
      let (digits, p) := shortest_digits m e in
      (if s then "-" else "") ++ format_short digits p
  end.

#[export] Instance float_text : FloatText :=
  {| float_of_string := float_literal; float_repr := repr_float |}.

End cpython.

(* ===================================================================== *)
(** ** An example collaborator                                            *)
(* ===================================================================== *)

(** Modelled from the spec: a unit parser and a colour parser with the
    interface of the spec (parser.py is not part of validators.py), for the
    examples.  An int reads as pixels, [<int>px] and [<int>%] read as a
    length and a percentage, [#rrggbb] reads as a colour, a parsed value is
    returned as it is, and anything else raises ValueError. *)
Module example.

Definition px (z : Z) : pyval :=
  PyObj (mk_object Unit (int_str z ++ "px") (int_str z ++ "px")).

Definition percent (z : Z) : pyval :=
  PyObj (mk_object Percent (int_str z ++ "%") (int_str z ++ "%")).

Definition rgb (hex : string) : pyval :=
  PyObj (mk_object Color ("#" ++ hex) ("#" ++ hex)).

(** [s] without the suffix, when it ends with it. *)
Definition without_suffix (suffix s : string) : option string :=
  let n := (String.length s - String.length suffix)%nat in
  if (String.length suffix <=? String.length s)%nat
     && String.eqb (substring n (String.length suffix) s) suffix
  then Some (substring 0 n s) else None.

Definition unknown {A} (what : string) (value : pyval) : result A :=
  raise ValueError
    ("Unknown " ++ what ++ " " ++ @py_str cpython.float_text value).

(** Modelled from the spec: an example of the unit parser of parser.py. *)
Definition units (value : pyval) : result pyval :=
  match value with
  | PyObj o =>
      match ob_type o with
      | Unit | Percent => Return value
      | _ => unknown "size" value
      end
  | PyInt z => Return (px z)
  | PyStr s =>
      match option_map int_of_string (without_suffix "px" s),
            option_map int_of_string (without_suffix "%" s),
            int_of_string s with
      | Some (Some z), _, _ => Return (px z)
      | _, Some (Some z), _ => Return (percent z)
      | _, _, Some z => Return (px z)
      | _, _, _ => unknown "size" value
      end
  | _ => unknown "size" value
  end.

Definition ishex (c : ascii) : bool :=
  let n := code (lower_char c) in
  isdigit c || ((97 <=? n) && (n <=? 102)).

Fixpoint all_hex (s : string) : bool :=
  match s with
  | EmptyString => true
  | String c rest => ishex c && all_hex rest
  end.

(** Modelled from the spec: an example of the colour parser of parser.py. *)
Definition color (value : pyval) : result pyval :=
  match value with
  | PyObj o =>
      match ob_type o with
      | Color => Return value
      | _ => unknown "color" value
      end
  | PyStr (String "#" hex) =>
      if (String.length hex =? 6)%nat && all_hex hex
      then Return (rgb (lower hex)) else unknown "color" value
  | _ => unknown "color" value
  end.

#[export] Instance collaborator : parser.Parser :=
  {| parser.units := units; parser.color := color |}.

End example.

(* ===================================================================== *)
(** ** Vocabulary of the properties                                       *)
(* ===================================================================== *)

(** What [try ... except ValueError as error: raise ValidationError(str(error))]
    makes of a result. *)
Definition wrapped {A} (r : result A) : result A :=
  match r with
  | Return a => Return a
  | Raise e =>
      if issubclass (exn_type e) ValueError
      then raise ValidationError (exn_str e) else Raise e
  end.

(** The two exception classes that [_numeric_validator] catches around the
    coercion. *)
Definition caught_by_numeric_validator (e : pyexn) : bool :=
  issubclass (exn_type e) ValueError || issubclass (exn_type e) TypeError.

(** [min_value is not None and num < min_value] *)
Definition below_minimum (num : pynum) (min_value : option pynum) : bool :=
  match min_value with
  | Some lo => num_lt num lo
  | None => false
  end.

(** [max_value is not None and num > max_value] *)
Definition above_maximum (num : pynum) (max_value : option pynum) : bool :=
  match max_value with
  | Some hi => num_gt num hi
  | None => false
  end.

(** The inputs that the three branches of [is_border_spacing] are written
    for: a sequence that is no str, an int or a float, a str. *)
Definition border_spacing_shape (value : pyval) : bool :=
  match value with
  | PyTuple _ | PyList _ | PyBool _ | PyInt _ | PyFloat _ | PyStr _ => true
  | _ => false
  end.

Fixpoint has_space (s : string) : bool :=
  match s with
  | EmptyString => false
  | String c rest => isspace c || has_space rest
  end.

(** The integer part of [m * 2^e], rounding toward zero. *)
Definition truncate_toward_zero (negative : bool) (m : positive) (e : Z) : Z :=
  Z.quot ((if negative then Z.neg m else Z.pos m) * 2 ^ Z.max e 0)
         (2 ^ Z.max (- e) 0).

(** The float 10.7: 0x1.5666666666666p+3. *)
Definition float_10_7 : float := S754_finite false 6023564501608038 (-49).

(* ===================================================================== *)
(** * Properties                                                          *)
(* ===================================================================== *)


Lemma ValidationError_is_ValueError : issubclass ValidationError ValueError = true.
Proof. reflexivity. Qed.

Lemma bind_Return_r {A} (r : result A) : (x <- r ;; Return x) = r.
Proof. destruct r; reflexivity. Qed.

Lemma try_wrap {A} (r : result A) :
  (try r except [ValueError] as error =>
     raise ValidationError (exn_str error)) = wrapped r.
Proof.
  destruct r as [a | e]; simpl; [reflexivity |].
  now rewrite orb_false_r.
Qed.

Lemma wrapped_idem {A} (r : result A) : wrapped (wrapped r) = wrapped r.
Proof.
  destruct r as [a | e]; simpl; [reflexivity |].
  destruct (issubclass (exn_type e) ValueError) eqn:E; simpl;
    [reflexivity | now rewrite E].
Qed.

(** An exception that leaves [wrapped r] is a ValidationError, or it is
    the one [r] raised and no ValueError. *)
Lemma wrapped_Raise {A} (r : result A) (e : pyexn) :
  wrapped r = Raise e ->
  exn_type e = ValidationError
  \/ (r = Raise e /\ issubclass (exn_type e) ValueError = false).
Proof.
  destruct r as [a | e0]; simpl; [discriminate |].
  destruct (issubclass (exn_type e0) ValueError) eqn:E; intros [= <-];
    [left; reflexivity | right; split; [reflexivity | exact E]].
Qed.

(** ** Text *)

#[local] Arguments Ascii.eqb : simpl never.

(** *** Tokens of a string *)

Lemma lstrip_no_space s : has_space s = false -> lstrip isspace s = s.
Proof.
  destruct s as [| c rest]; simpl; [reflexivity |].
  intros H. apply orb_false_elim in H as [-> _]. reflexivity.
Qed.

Lemma rstrip_no_space s : has_space s = false -> rstrip isspace s = s.
Proof.
  induction s as [| c rest IH]; simpl; [reflexivity |].
  intros H. apply orb_false_elim in H as [Hc Hrest].
  rewrite (IH Hrest), Hc. destruct rest; reflexivity.
Qed.

Lemma strip_no_space s : has_space s = false -> strip s = s.
Proof.
  intros H. unfold strip. rewrite (lstrip_no_space s H).
  now apply rstrip_no_space.
Qed.

(** Every token of [s.split()] is not empty and holds no whitespace. *)
Lemma split_tokens s :
  Forall (fun tok => tok <> EmptyString /\ has_space tok = false) (split s).
Proof.
  induction s as [| c rest IH]; simpl; [constructor |].
  destruct (isspace c) eqn:Hc; [exact IH |].
  destruct rest as [| d rest'].
  - repeat constructor; [discriminate | simpl; now rewrite Hc].
  - destruct (isspace d) eqn:Hd.
    + constructor; [| exact IH].
      split; [discriminate | simpl; now rewrite Hc].
    + destruct (split (String d rest')) as [| tok toks].
      * repeat constructor; [discriminate | simpl; now rewrite Hc].
      * inversion IH as [| ? ? [_ Htok] Htoks]; subst.
        constructor; [| exact Htoks].
        split; [discriminate | simpl; now rewrite Hc, Htok].
Qed.

Lemma strip_split s : map (fun x => PyStr (strip x)) (split s) = map PyStr (split s).
Proof.
  apply map_ext_Forall. eapply Forall_impl; [| apply split_tokens].
  intros tok [_ H]. simpl. now rewrite strip_no_space.
Qed.

(** *** No int literal holds a decimal point *)

Lemma parse_digits_point s acc after_digit :
  contains "." s = true -> parse_digits s acc after_digit = None.
Proof.
  revert acc after_digit.
  induction s as [| c rest IH]; simpl; intros acc after_digit H;
    [discriminate |].
  destruct (Ascii.eqb_spec "." c) as [<- | Hc]; [reflexivity |].
  simpl in H. destruct (isdigit c); [now apply IH |].
  destruct (Ascii.eqb c "_" && after_digit); [now apply IH | reflexivity].
Qed.

Lemma lstrip_contains_point space s :
  space "."%char = false ->
  contains "." (lstrip space s) = contains "." s.
Proof.
  intros Hpoint. induction s as [| c rest IH]; simpl; [reflexivity |].
  destruct (space c) eqn:Hc; [| reflexivity].
  rewrite IH. destruct (Ascii.eqb_spec "." c) as [<- | _];
    [congruence | reflexivity].
Qed.

Lemma rstrip_contains_point space s :
  space "."%char = false ->
  contains "." (rstrip space s) = contains "." s.
Proof.
  intros Hpoint. induction s as [| c rest IH]; simpl; [reflexivity |].
  rewrite <- IH. destruct (rstrip space rest) as [| d kept]; [| reflexivity].
  destruct (space c) eqn:Hc; [| reflexivity].
  simpl. destruct (Ascii.eqb_spec "." c) as [<- | _];
    [congruence | reflexivity].
Qed.

Lemma scan_sign_contains_point s :
  contains "." (snd (scan_sign s)) = contains "." s.
Proof.
  destruct s as [| c rest]; simpl; [reflexivity |].
  destruct (Ascii.eqb_spec c "-") as [-> | _]; [reflexivity |].
  destruct (Ascii.eqb_spec c "+") as [-> | _]; reflexivity.
Qed.

Lemma int_of_string_point s : contains "." s = true -> int_of_string s = None.
Proof.
  intros H. unfold int_of_string.
  pose proof (scan_sign_contains_point (strip_number s)) as Hsign.
  destruct (scan_sign (strip_number s)) as [negative digits]. simpl in Hsign.
  rewrite parse_digits_point; [reflexivity |].
  rewrite Hsign. unfold strip_number.
  now rewrite rstrip_contains_point, lstrip_contains_point.
Qed.

(** ** The validators *)

Section ValidatorFacts.
Context {float_text : FloatText} {collaborator : parser.Parser}.

Lemma is_length_wrapped value : is_length value = wrapped (parser.units value).
Proof. unfold is_length. now rewrite bind_Return_r, try_wrap. Qed.

Lemma is_color_wrapped value : is_color value = wrapped (parser.color value).
Proof. unfold is_color. now rewrite bind_Return_r, try_wrap. Qed.

Lemma is_length_wrapped_idem value : wrapped (is_length value) = is_length value.
Proof. rewrite is_length_wrapped. apply wrapped_idem. Qed.

(** C5: [is_length] hands the value to [parser.units] and returns what it
    returns; a ValueError that the parser raises is raised again as a
    ValidationError with the same text. *)
Theorem is_length_delegates_to_parser (value : pyval) :
  match parser.units value with
  | Return parsed => is_length value = Return parsed
  | Raise error =>
      if issubclass (exn_type error) ValueError
      then is_length value = Raise (mk_exn ValidationError (exn_str error))
      else is_length value = Raise error
  end.
Proof.
  rewrite is_length_wrapped.
  destruct (parser.units value) as [parsed | error]; simpl; [reflexivity |].
  destruct (issubclass (exn_type error) ValueError); reflexivity.
Qed.

Lemma is_percentage_as_is_length value :
  is_percentage value =
    parsed <- is_length value ;;
    if isinstance_Percent parsed then Return parsed
    else raise ValidationError
           ("Value " ++ py_str parsed ++ " is not a Percent unit").
Proof.
  unfold is_percentage, is_length. rewrite bind_Return_r.
  destruct (try_except _ _ _) as [parsed | e]; simpl; [| reflexivity].
  destruct (isinstance_Percent parsed); reflexivity.
Qed.

(** C4: [is_percentage] returns a value exactly when [is_length] returns
    that value and it is an instance of [units.Percent]; it raises what
    [is_length] raises when the parse fails, and a ValidationError when
    the parsed value is no Percent. *)
Theorem is_percentage_is_length_then_Percent (value : pyval) :
  (forall parsed,
      is_percentage value = Return parsed <->
      is_length value = Return parsed /\ isinstance_Percent parsed = true)
  /\ (forall error,
      is_length value = Raise error -> is_percentage value = Raise error)
  /\ (forall parsed,
      is_length value = Return parsed ->
      isinstance_Percent parsed = false ->
      is_percentage value =
        Raise (mk_exn ValidationError
                 ("Value " ++ py_str parsed ++ " is not a Percent unit"))).
Proof.
  rewrite is_percentage_as_is_length.
  destruct (is_length value) as [p | e]; simpl.
  - split; [| split].
    + intros parsed. destruct (isinstance_Percent p) eqn:E; split.
      * intros [= <-]. now split.
      * now intros [[= <-] _].
      * discriminate.
      * intros [[= <-] E']. congruence.
    + discriminate.
    + intros parsed [= <-] ->. reflexivity.
  - split; [| split].
    + intros parsed. split; [discriminate | intros [? _]; discriminate].
    + intros error [= <-]. reflexivity.
    + discriminate.
Qed.

End ValidatorFacts.

Section NumericFacts.
Context {float_text : FloatText}.

(** [_numeric_validator] with its three steps side by side. *)
Lemma numeric_validator_steps num_value t min_value max_value :
  _numeric_validator num_value t min_value max_value =
    match coerce t num_value with
    | Raise error =>
        if caught_by_numeric_validator error
        then raise ValidationError
               ("Cannot coerce " ++ py_str num_value ++ " to " ++ __name__ t)
        else Raise error
    | Return num =>
        if below_minimum num min_value then
          raise ValidationError
            ("Value " ++ num_str num ++ " below minimum value "
             ++ match min_value with Some lo => num_str lo | None => "" end)
        else if above_maximum num max_value then
          raise ValidationError
            ("Value " ++ num_str num ++ " above maximum value "
             ++ match max_value with Some hi => num_str hi | None => "" end)
        else Return (num_to_val num)
    end.
Proof.
  unfold _numeric_validator, caught_by_numeric_validator.
  destruct (coerce t num_value) as [num | error]; simpl.
  - destruct min_value as [lo |]; simpl.
    + destruct (num_lt num lo); simpl; [reflexivity |].
      destruct max_value as [hi |]; simpl; [| reflexivity].
      destruct (num_gt num hi); reflexivity.
    + destruct max_value as [hi |]; simpl; [| reflexivity].
      destruct (num_gt num hi); reflexivity.
  - rewrite orb_false_r.
    destruct (issubclass (exn_type error) ValueError
              || issubclass (exn_type error) TypeError); reflexivity.
Qed.

Lemma numeric_validator_no_bounds num_value t :
  _numeric_validator num_value t None None =
    match coerce t num_value with
    | Raise error =>
        if caught_by_numeric_validator error
        then raise ValidationError
               ("Cannot coerce " ++ py_str num_value ++ " to " ++ __name__ t)
        else Raise error
    | Return num => Return (num_to_val num)
    end.
Proof.
  rewrite numeric_validator_steps.
  destruct (coerce t num_value); reflexivity.
Qed.

(** For [is_number] and for [is_integer], whether a bound is given decides
    alone what the call does: with none it checks [value] at once (the
    coerced value, or the exception of the coercion, a ValueError or
    TypeError turned into a ValidationError); with one it returns the
    validator, with the bounds, for a value to come, whatever [value] is.
    What the validator does with a value is [numeric_validator_steps]. *)
Lemma mode_selected_by_bounds (value : pyval)
    (min_value max_value : option pynum) :
  (if bounds_given min_value max_value
   then is_number value min_value max_value =
          Validator (fun num_value =>
            _numeric_validator num_value py_float_type min_value max_value)
        /\ is_integer value min_value max_value =
          Validator (fun num_value =>
            _numeric_validator num_value py_int_type min_value max_value)
   else is_number value min_value max_value =
          Checked (_numeric_validator value py_float_type None None)
        /\ is_integer value min_value max_value =
          Checked (_numeric_validator value py_int_type None None))
  /\ (forall t,
        _numeric_validator value t None None =
          match coerce t value with
          | Return num => Return (num_to_val num)
          | Raise error =>
              if caught_by_numeric_validator error
              then raise ValidationError
                     ("Cannot coerce " ++ py_str value ++ " to "
                      ++ __name__ t)
              else Raise error
          end).
Proof.
  split.
  - destruct min_value, max_value; simpl; split; reflexivity.
  - intros t. rewrite numeric_validator_no_bounds.
    destruct (coerce t value); reflexivity.
Qed.

Lemma run_is_number value min_value max_value later :
  run (is_number value min_value max_value) later =
    _numeric_validator
      (if bounds_given min_value max_value then later else value)
      py_float_type min_value max_value.
Proof. destruct min_value, max_value; reflexivity. Qed.

Lemma run_is_integer value min_value max_value later :
  run (is_integer value min_value max_value) later =
    _numeric_validator
      (if bounds_given min_value max_value then later else value)
      py_int_type min_value max_value.
Proof. destruct min_value, max_value; reflexivity. Qed.

Lemma dyadic_compare_refl a :
  dyadic_compare a a = match a with DNaN => None | _ => Some Eq end.
Proof.
  destruct a as [| [] | m e]; simpl; try reflexivity.
  now rewrite Z.compare_refl.
Qed.

Lemma num_lt_int a b : num_lt (NInt a) (NInt b) = (a <? b).
Proof.
  unfold num_lt, Z.ltb; simpl. rewrite ?Z.shiftl_0_r.
  destruct (a ?= b); reflexivity.
Qed.

Lemma num_gt_int a b : num_gt (NInt a) (NInt b) = (b <? a).
Proof.
  unfold num_gt, Z.ltb; simpl. rewrite ?Z.shiftl_0_r.
  rewrite (Z.compare_antisym a b).
  destruct (a ?= b); reflexivity.
Qed.

Lemma equal_passes_both_checks num bound :
  dyadic_compare (num_dyadic num) (num_dyadic bound) = Some Eq ->
  num_lt num bound = false /\ num_gt num bound = false.
Proof. unfold num_lt, num_gt. intros ->. split; reflexivity. Qed.

(** C3, as the code has it: a ValueError or TypeError of the coercion
    becomes a ValidationError that names the value and the type; a coerced
    value below [min_value] raises a ValidationError that names the
    minimum; one that is not below the minimum and is above [max_value]
    raises a ValidationError that names the maximum; any other coerced
    value is returned.  The bounds are inclusive: a value equal to a bound
    passes the check of that bound. *)
Theorem numeric_validator_inclusive_bounds (num_value : pyval)
    (t : numeric_type) (min_value max_value : option pynum) :
  (forall error,
      coerce t num_value = Raise error ->
      caught_by_numeric_validator error = true ->
      _numeric_validator num_value t min_value max_value =
        Raise (mk_exn ValidationError
                 ("Cannot coerce " ++ py_str num_value ++ " to "
                  ++ __name__ t)))
  /\ (forall num,
      coerce t num_value = Return num ->
      (forall lo,
          min_value = Some lo -> num_lt num lo = true ->
          _numeric_validator num_value t min_value max_value =
            Raise (mk_exn ValidationError
                     ("Value " ++ num_str num ++ " below minimum value "
                      ++ num_str lo)))
      /\ (forall hi,
          max_value = Some hi -> below_minimum num min_value = false ->
          num_gt num hi = true ->
          _numeric_validator num_value t min_value max_value =
            Raise (mk_exn ValidationError
                     ("Value " ++ num_str num ++ " above maximum value "
                      ++ num_str hi)))
      /\ (below_minimum num min_value = false ->
          above_maximum num max_value = false ->
          _numeric_validator num_value t min_value max_value =
            Return (num_to_val num)))
  /\ (forall num bound,
      dyadic_compare (num_dyadic num) (num_dyadic bound) = Some Eq ->
      num_lt num bound = false /\ num_gt num bound = false)
  /\ (forall a b,
      num_lt (NInt a) (NInt b) = (a <? b)
      /\ num_gt (NInt a) (NInt b) = (b <? a)).
Proof.
  rewrite numeric_validator_steps.
  split; [| split; [| split]].
  - intros error -> ->. reflexivity.
  - intros num ->. split; [| split].
    + intros lo -> Hlt. simpl. now rewrite Hlt.
    + intros hi -> -> Hgt. simpl. now rewrite Hgt.
    + intros -> ->. reflexivity.
  - apply equal_passes_both_checks.
  - intros a b. split; [apply num_lt_int | apply num_gt_int].
Qed.

Lemma float_trunc_finite s m e :
  float_trunc (S754_finite s m e) = Some (truncate_toward_zero s m e).
Proof.
  unfold float_trunc, truncate_toward_zero. f_equal.
  destruct (Z.leb_spec 0 e) as [He | He].
  - rewrite Z.max_l, Z.max_r by lia. rewrite Z.pow_0_r, Z.quot_1_r.
    rewrite Z.shiftl_mul_pow2 by lia.
    destruct s; [| reflexivity].
    rewrite <- Z.mul_opp_l. reflexivity.
  - rewrite Z.max_r, Z.max_l by lia. rewrite Z.pow_0_r, Z.mul_1_r.
    rewrite Z.shiftr_div_pow2 by lia.
    assert (Hp : 0 < 2 ^ (- e)) by (apply Z.pow_pos_nonneg; lia).
    destruct s.
    + change (Z.neg m) with (- Z.pos m).
      rewrite Z.quot_opp_l by lia. f_equal.
      symmetry. apply Z.quot_div_nonneg; lia.
    + symmetry. apply Z.quot_div_nonneg; lia.
Qed.

(** C10, as the code has it: without bounds [is_integer] returns every
    finite float truncated toward zero (10.7 gives 10), and raises a
    ValidationError on the string 10.7 and on the float NaN. *)
Theorem is_integer_truncates_floats_rejects_fraction_strings :
  (forall s m e,
      is_integer (PyFloat (S754_finite s m e)) None None =
        Checked (Return (PyInt (truncate_toward_zero s m e))))
  /\ (forall s,
      is_integer (PyFloat (S754_zero s)) None None =
        Checked (Return (PyInt 0)))
  /\ is_integer (PyFloat float_10_7) None None = Checked (Return (PyInt 10))
  /\ (forall text,
        contains "." text = true ->
        is_integer (PyStr text) None None =
          Checked (Raise (mk_exn ValidationError
                            ("Cannot coerce " ++ text ++ " to int"))))
  /\ is_integer (PyStr "10.7") None None =
       Checked (Raise (mk_exn ValidationError "Cannot coerce 10.7 to int"))
  /\ is_integer (PyFloat S754_nan) None None =
       Checked (Raise (mk_exn ValidationError
                         ("Cannot coerce " ++ float_repr S754_nan
                          ++ " to int"))).
Proof.
  split; [| split; [| split; [| split; [| split]]]]; try reflexivity.
  - intros s m e. unfold is_integer. rewrite numeric_validator_no_bounds.
    unfold coerce, py_int. rewrite float_trunc_finite. reflexivity.
  - intros text Hpoint. unfold is_integer.
    rewrite numeric_validator_no_bounds.
    unfold coerce, py_int. now rewrite (int_of_string_point text Hpoint).
Qed.

(** Where the coercion overflows, its OverflowError leaves the validator
    as it is. *)
Lemma is_integer_infinity_overflows s :
  is_integer (PyFloat (S754_infinity s)) None None =
    Checked (Raise (mk_exn OverflowError
                      "cannot convert float infinity to integer")).
Proof. reflexivity. Qed.

Lemma is_number_huge_int_overflows :
  is_number (PyInt (2 ^ 1024)) None None =
    Checked (Raise (mk_exn OverflowError
                      "int too large to convert to float")).
Proof. vm_compute. reflexivity. Qed.

(** C2, where the code departs from it: without bounds the call checks its
    value at once, and on the float infinity [is_integer], on the int
    2^1024 [is_number], neither returns a coerced value nor raises a
    ValidationError: the OverflowError of the coercion, which is no
    ValueError and which the except clause of [_numeric_validator] does not
    list, leaves the call.  With a bound given, the validator returned does
    the same on these values. *)
Theorem immediate_check_lets_OverflowError_through :
  is_integer (PyFloat (S754_infinity false)) None None =
    Checked (Raise (mk_exn OverflowError
                      "cannot convert float infinity to integer"))
  /\ is_number (PyInt (2 ^ 1024)) None None =
       Checked (Raise (mk_exn OverflowError
                         "int too large to convert to float"))
  /\ issubclass OverflowError ValueError = false
  /\ (forall value min_value max_value,
        run (is_integer value (Some min_value) max_value)
            (PyFloat (S754_infinity false)) =
          Raise (mk_exn OverflowError
                   "cannot convert float infinity to integer")).
Proof.
  split; [reflexivity |]. split; [vm_compute; reflexivity |].
  split; [reflexivity |].
  intros value min_value max_value.
  rewrite run_is_integer, numeric_validator_steps. reflexivity.
Qed.

End NumericFacts.

Section BorderSpacingFacts.
Context {collaborator : parser.Parser}.

Lemma border_spacing_values_str s :
  border_spacing_values (PyStr s) = Return (map PyStr (split s)).
Proof. unfold border_spacing_values. simpl. now rewrite strip_split. Qed.

Lemma one_length_wrapped v0 :
  wrapped (horizontal <- is_length v0 ;; Return (PyTuple [horizontal]))
  = (horizontal <- is_length v0 ;; Return (PyTuple [horizontal])).
Proof.
  rewrite is_length_wrapped.
  destruct (parser.units v0) as [h | e]; simpl; [reflexivity |].
  destruct (issubclass (exn_type e) ValueError) eqn:E; simpl;
    [reflexivity | now rewrite E].
Qed.

Lemma two_lengths_wrapped v0 v1 :
  wrapped (horizontal <- is_length v0 ;;
           vertical <- is_length v1 ;;
           Return (PyTuple [horizontal; vertical]))
  = (horizontal <- is_length v0 ;;
     vertical <- is_length v1 ;;
     Return (PyTuple [horizontal; vertical])).
Proof.
  rewrite !is_length_wrapped.
  destruct (parser.units v0) as [h | e]; simpl.
  - destruct (parser.units v1) as [v | e]; simpl; [reflexivity |].
    destruct (issubclass (exn_type e) ValueError) eqn:E; simpl;
      [reflexivity | now rewrite E].
  - destruct (issubclass (exn_type e) ValueError) eqn:E; simpl;
      [reflexivity | now rewrite E].
Qed.

Lemma border_spacing_values_by_shape (value : pyval) :
  match value with
  | PyTuple items | PyList items =>
      border_spacing_values value = Return items
  | PyBool _ | PyInt _ | PyFloat _ =>
      border_spacing_values value = Return [value]
  | PyStr s => border_spacing_values value = Return (map PyStr (split s))
  | _ =>
      border_spacing_values value =
        Raise (mk_exn AttributeError
                 ("'" ++ type_name value
                  ++ "' object has no attribute 'split'"))
  end.
Proof. destruct value; try reflexivity. apply border_spacing_values_str. Qed.

Lemma is_border_spacing_by_count (value : pyval) :
  match border_spacing_values value with
  | Return [v0] =>
      is_border_spacing value =
        (horizontal <- is_length v0 ;; Return (PyTuple [horizontal]))
  | Return [v0; v1] =>
      is_border_spacing value =
        (horizontal <- is_length v0 ;;
         vertical <- is_length v1 ;;
         Return (PyTuple [horizontal; vertical]))
  | Return _ =>
      is_border_spacing value =
        Raise (mk_exn ValidationError
                 "Should provide 1 or 2 <length> values!")
  | Raise error => is_border_spacing value = Raise error
  end.
Proof.
  unfold is_border_spacing.
  destruct (border_spacing_values value) as [values | error];
    [simpl | reflexivity].
  destruct values as [| v0 [| v1 [| v2 rest]]]; try reflexivity.
  - rewrite try_wrap. apply one_length_wrapped.
  - rewrite try_wrap. apply two_lengths_wrapped.
Qed.

(** C1: [is_border_spacing] takes its values from a tuple or a list as
    they are, from an int or a float as the one value, and from a str as
    its whitespace-separated tokens; any other value has no [split].  One
    value gives the 1-tuple of its [is_length], two give the 2-tuple
    (horizontal, vertical), and any other count raises the ValidationError
    with the text of the code. *)
Theorem is_border_spacing_one_or_two_lengths (value : pyval) :
  match value with
  | PyTuple items | PyList items =>
      border_spacing_values value = Return items
  | PyBool _ | PyInt _ | PyFloat _ =>
      border_spacing_values value = Return [value]
  | PyStr s => border_spacing_values value = Return (map PyStr (split s))
  | _ =>
      border_spacing_values value =
        Raise (mk_exn AttributeError
                 ("'" ++ type_name value
                  ++ "' object has no attribute 'split'"))
  end
  /\ match border_spacing_values value with
     | Return [v0] =>
         is_border_spacing value =
           (horizontal <- is_length v0 ;; Return (PyTuple [horizontal]))
     | Return [v0; v1] =>
         is_border_spacing value =
           (horizontal <- is_length v0 ;;
            vertical <- is_length v1 ;;
            Return (PyTuple [horizontal; vertical]))
     | Return _ =>
         is_border_spacing value =
           Raise (mk_exn ValidationError
                    "Should provide 1 or 2 <length> values!")
     | Raise error => is_border_spacing value = Raise error
     end.
Proof.
  split;
    [apply border_spacing_values_by_shape | apply is_border_spacing_by_count].
Qed.

Lemma is_length_Raise value error :
  is_length value = Raise error ->
  exn_type error = ValidationError
  \/ (parser.units value = Raise error
      /\ issubclass (exn_type error) ValueError = false).
Proof. rewrite is_length_wrapped. apply wrapped_Raise. Qed.

(** An exception that leaves [is_border_spacing]: a ValidationError, or
    the one that reading the values raised, or one of the parser that is
    no ValueError. *)
Lemma is_border_spacing_Raise value error :
  is_border_spacing value = Raise error ->
  exn_type error = ValidationError
  \/ border_spacing_values value = Raise error
  \/ exists token,
       parser.units token = Raise error
       /\ issubclass (exn_type error) ValueError = false.
Proof.
  pose proof (is_border_spacing_by_count value) as H.
  destruct (border_spacing_values value) as [values | e].
  - destruct values as [| v0 [| v1 [| v2 rest]]]; rewrite H; clear H.
    + intros [= <-]. now left.
    + destruct (is_length v0) as [h |] eqn:E0; simpl; [discriminate |].
      intros [= ->]. apply is_length_Raise in E0 as [? | ?];
        [now left | right; right; now exists v0].
    + destruct (is_length v0) as [h |] eqn:E0; simpl.
      * destruct (is_length v1) as [v |] eqn:E1; simpl; [discriminate |].
        intros [= ->]. apply is_length_Raise in E1 as [? | ?];
          [now left | right; right; now exists v1].
      * intros [= ->]. apply is_length_Raise in E0 as [? | ?];
          [now left | right; right; now exists v0].
    + intros [= <-]. now left.
  - rewrite H. intros [= ->]. right; now left.
Qed.

(** C9: on a sequence, a number or a str, an exception of
    [is_border_spacing] is a ValidationError (or one of the parser that is
    no ValueError, which no validator touches: with a parser that raises
    only ValueError, nothing but ValidationError); on any other value, such
    as None or a dict, it is the AttributeError of [value.split]. *)
Theorem is_border_spacing_AttributeError_outside_shapes (value : pyval) :
  (if border_spacing_shape value
   then forall error,
          is_border_spacing value = Raise error ->
          exn_type error = ValidationError
          \/ exists token,
               parser.units token = Raise error
               /\ issubclass (exn_type error) ValueError = false
   else is_border_spacing value =
          Raise (mk_exn AttributeError
                   ("'" ++ type_name value
                    ++ "' object has no attribute 'split'")))
  /\ ((forall token error,
         parser.units token = Raise error ->
         issubclass (exn_type error) ValueError = true) ->
      border_spacing_shape value = true ->
      forall error,
        is_border_spacing value = Raise error ->
        exn_type error = ValidationError)
  /\ is_border_spacing PyNone =
       Raise (mk_exn AttributeError
                "'NoneType' object has no attribute 'split'")
  /\ (forall entries,
       is_border_spacing (PyDict entries) =
         Raise (mk_exn AttributeError
                  "'dict' object has no attribute 'split'")).
Proof.
  assert (Hshaped : border_spacing_shape value = true ->
                    forall error,
                      is_border_spacing value = Raise error ->
                      exn_type error = ValidationError
                      \/ exists token,
                           parser.units token = Raise error
                           /\ issubclass (exn_type error) ValueError = false).
  { intros Hshape error H.
    apply is_border_spacing_Raise in H as [H | [H | H]];
      [now left | | now right].
    pose proof (border_spacing_values_by_shape value) as Hv.
    destruct value; try discriminate Hshape; congruence. }
  split; [| split; [| split; reflexivity]].
  - destruct (border_spacing_shape value) eqn:Hshape.
    + now apply Hshaped.
    + destruct value; try discriminate Hshape; reflexivity.
  - intros Hparser Hshape error H.
    destruct (Hshaped Hshape error H) as [Hv | (token & Hraise & Hsub)];
      [exact Hv |].
    rewrite (Hparser token error Hraise) in Hsub. discriminate.
Qed.

End BorderSpacingFacts.

Section ErrorFacts.
Context {float_text : FloatText} {collaborator : parser.Parser}.

(** The coercion raises nothing but ValueError, TypeError and
    OverflowError. *)
Lemma coerce_Raise t value error :
  coerce t value = Raise error ->
  exn_type error = ValueError \/ exn_type error = TypeError
  \/ exn_type error = OverflowError.
Proof.
  unfold coerce, py_float, py_int, float_of_int, raise.
  destruct t, value as [| b | z | f | s | | | |]; simpl;
    try (intros [= <-]; simpl; tauto); try discriminate.
  - destruct (float_of_Z (Z_of_bool b)); simpl;
      try discriminate; intros [= <-]; simpl; tauto.
  - destruct (float_of_Z z); simpl;
      try discriminate; intros [= <-]; simpl; tauto.
  - destruct (float_of_string s); simpl;
      try discriminate; intros [= <-]; simpl; tauto.
  - destruct f; simpl; try discriminate; intros [= <-]; simpl; tauto.
  - destruct (int_of_string s); simpl;
      try discriminate; intros [= <-]; simpl; tauto.
Qed.

Lemma uncaught_is_OverflowError t value error :
  coerce t value = Raise error ->
  caught_by_numeric_validator error = false ->
  exn_type error = OverflowError.
Proof.
  intros H Hcaught. unfold caught_by_numeric_validator in Hcaught.
  destruct (coerce_Raise t value error H) as [E | [E | E]];
    rewrite E in *; [discriminate | discriminate | reflexivity].
Qed.

Lemma numeric_validator_Raise num_value t min_value max_value error :
  _numeric_validator num_value t min_value max_value = Raise error ->
  exn_type error = ValidationError
  \/ (coerce t num_value = Raise error
      /\ caught_by_numeric_validator error = false).
Proof.
  rewrite numeric_validator_steps.
  destruct (coerce t num_value) as [num | e].
  - destruct (below_minimum num min_value); [intros [= <-]; now left |].
    destruct (above_maximum num max_value);
      [intros [= <-]; now left | discriminate].
  - destruct (caught_by_numeric_validator e) eqn:E; intros [= <-];
      [now left | now right].
Qed.

(** C7: ValidationError is a subclass of ValueError, and an exception
    that leaves a validator is a ValidationError unless it is one that a
    call made by the validator raised and that the validator does not
    catch: the OverflowError of the coercion in [is_number] and
    [is_integer], an exception of the parser that is no ValueError, or the
    AttributeError of the lookup of [split] on a value that has none. *)
Theorem validators_raise_ValidationError :
  issubclass ValidationError ValueError = true
  /\ (forall value min_value max_value later error,
        run (is_number value min_value max_value) later = Raise error ->
        exn_type error = ValidationError
        \/ (coerce py_float_type
              (if bounds_given min_value max_value then later else value)
            = Raise error
            /\ exn_type error = OverflowError))
  /\ (forall value min_value max_value later error,
        run (is_integer value min_value max_value) later = Raise error ->
        exn_type error = ValidationError
        \/ (coerce py_int_type
              (if bounds_given min_value max_value then later else value)
            = Raise error
            /\ exn_type error = OverflowError))
  /\ (forall value error,
        is_length value = Raise error ->
        exn_type error = ValidationError
        \/ (parser.units value = Raise error
            /\ issubclass (exn_type error) ValueError = false))
  /\ (forall value error,
        is_percentage value = Raise error ->
        exn_type error = ValidationError
        \/ (parser.units value = Raise error
            /\ issubclass (exn_type error) ValueError = false))
  /\ (forall value error,
        is_color value = Raise error ->
        exn_type error = ValidationError
        \/ (parser.color value = Raise error
            /\ issubclass (exn_type error) ValueError = false))
  /\ (forall value error,
        is_border_spacing value = Raise error ->
        exn_type error = ValidationError
        \/ (border_spacing_shape value = false
            /\ exn_type error = AttributeError)
        \/ exists token,
             parser.units token = Raise error
             /\ issubclass (exn_type error) ValueError = false).
Proof.
  split; [reflexivity |].
  split; [| split; [| split; [| split; [| split]]]].
  - intros value lo hi later error. rewrite run_is_number. intros H.
    apply numeric_validator_Raise in H as [H | [H Hcaught]]; [now left |].
    right. split; [exact H | now apply uncaught_is_OverflowError in H].
  - intros value lo hi later error. rewrite run_is_integer. intros H.
    apply numeric_validator_Raise in H as [H | [H Hcaught]]; [now left |].
    right. split; [exact H | now apply uncaught_is_OverflowError in H].
  - apply is_length_Raise.
  - intros value error. rewrite is_percentage_as_is_length.
    destruct (is_length value) as [parsed |] eqn:E; simpl.
    + destruct (isinstance_Percent parsed); [discriminate |].
      intros [= <-]. now left.
    + intros [= ->]. now apply is_length_Raise.
  - intros value error. rewrite is_color_wrapped. apply wrapped_Raise.
  - intros value error H.
    apply is_border_spacing_Raise in H as [H | [H | H]];
      [now left | | now right; right].
    right; left.
    pose proof (border_spacing_values_by_shape value) as Hv.
    destruct value; simpl; try congruence;
      rewrite Hv in H; injection H as <-; now split.
Qed.

(** C8: the [description] that the module sets on each validator. *)
Theorem validator_descriptions :
  description fn_is_number = "<number>"
  /\ description fn_is_integer = "<integer>"
  /\ description fn_is_length = "<length>"
  /\ description fn_is_percentage = "<percentage>"
  /\ description fn_is_color = "<color>"
  /\ description fn_is_border_spacing = "<length> <length>?".
Proof. repeat split. Qed.

End ErrorFacts.

(** *** [sorted] sorts *)

Lemma insert_sorted_Permutation x l : Permutation (insert_sorted x l) (x :: l).
Proof.
  induction l as [| y rest IH]; simpl; [reflexivity |].
  destruct (String.leb x y); [reflexivity |].
  rewrite IH. apply perm_swap.
Qed.

Lemma sorted_Permutation l : Permutation (sorted l) l.
Proof.
  induction l as [| x rest IH]; simpl; [reflexivity |].
  rewrite insert_sorted_Permutation. now constructor.
Qed.

Lemma insert_sorted_HdRel a x l :
  String.leb a x = true ->
  HdRel (fun s t => String.leb s t = true) a l ->
  HdRel (fun s t => String.leb s t = true) a (insert_sorted x l).
Proof.
  intros Hax Hal. destruct l as [| y rest]; simpl; [now constructor |].
  destruct (String.leb x y); constructor; [exact Hax |].
  now inversion Hal.
Qed.

Lemma insert_sorted_Sorted x l :
  Sorted (fun s t => String.leb s t = true) l ->
  Sorted (fun s t => String.leb s t = true) (insert_sorted x l).
Proof.
  induction 1 as [| y rest Hrest IH Hhd]; simpl; [repeat constructor |].
  destruct (String.leb x y) eqn:Hxy.
  - repeat constructor; assumption.
  - constructor; [exact IH |].
    apply insert_sorted_HdRel; [| exact Hhd].
    destruct (String.leb_total x y) as [H | H]; [congruence | exact H].
Qed.

Lemma sorted_Sorted l : Sorted (fun s t => String.leb s t = true) (sorted l).
Proof.
  induction l as [| x rest IH]; simpl; [constructor |].
  now apply insert_sorted_Sorted.
Qed.

Section ChoicesFacts.
Context {float_text : FloatText} {collaborator : parser.Parser}.

Lemma call_numeric value :
  is_number value None None = Checked (call fn_is_number value)
  /\ is_integer value None None = Checked (call fn_is_integer value).
Proof. split; reflexivity. Qed.

Lemma first_success_all_fail fs value otherwise :
  (forall f, In f fs ->
     exists error,
       call f value = Raise error
       /\ issubclass (exn_type error) ValueError = true) ->
  first_success fs value otherwise = otherwise.
Proof.
  induction fs as [| f rest IH]; intros Hall; simpl; [reflexivity |].
  destruct (Hall f (or_introl eq_refl)) as (error & -> & Hsub).
  simpl. rewrite Hsub. simpl.
  apply IH. intros g Hg. apply Hall. now right.
Qed.

Lemma wrapped_ValueError {A} (r : result A) error :
  r = Raise error -> issubclass (exn_type error) ValueError = true ->
  wrapped r = Raise (mk_exn ValidationError (exn_str error)).
Proof. intros -> H. simpl. now rewrite H. Qed.

(** C6: when the float reader and the two parsers reject the text
    [invalid] with a ValueError, setting it on the property [prop] with
    the Choices of the test fails with the message of the test: the legal
    forms in alphabetical order, each validator under its description. *)
Theorem all_choices_message :
  float_of_string "invalid" = None ->
  (exists error,
      parser.units (PyStr "invalid") = Raise error
      /\ issubclass (exn_type error) ValueError = true) ->
  (exists error,
      parser.color (PyStr "invalid") = Raise error
      /\ issubclass (exn_type error) ValueError = true) ->
  validated_property_set "prop" all_choices (PyStr "invalid") =
    Raise (mk_exn ValidationError
      "Invalid value 'invalid' for CSS property 'prop'; Valid values are: <color>, <integer>, <length>, <number>, <percentage>, a, b, inherit, initial, none, revert, unset").
Proof.
  intros Hfloat (eu & Hu & Hsu) (ec & Hc & Hsc).
  unfold validated_property_set, Choices_validate.
  replace (find _ _) with (@None constant) by (vm_compute; reflexivity).
  rewrite first_success_all_fail.
  - vm_compute. reflexivity.
  - intros f Hf. simpl in Hf.
    destruct Hf as [<- | [<- | [<- | [<- | [<- | []]]]]]; simpl.
    + eexists; split; reflexivity.
    + rewrite numeric_validator_no_bounds. simpl. rewrite Hfloat. simpl.
      eexists; split; reflexivity.
    + rewrite is_length_wrapped, (wrapped_ValueError _ _ Hu Hsu).
      eexists; split; reflexivity.
    + rewrite is_percentage_as_is_length, is_length_wrapped,
        (wrapped_ValueError _ _ Hu Hsu).
      eexists; split; reflexivity.
    + rewrite is_color_wrapped, (wrapped_ValueError _ _ Hc Hsc).
      eexists; split; reflexivity.
Qed.

End ChoicesFacts.

(* ===================================================================== *)
(** ** The properties at work                                             *)
(* ===================================================================== *)

(** The examples run with CPython's float texts and the example parser. *)

(** The literal 10.7 and the float [float_10_7] read as each other. *)
Example float_10_7_is_the_literal :
  cpython.float_literal "10.7" = Some float_10_7
  /\ cpython.repr_float float_10_7 = "10.7".
Proof. split; vm_compute; reflexivity. Qed.

(** C1 at work: two tokens, two lengths. *)
Lemma is_border_spacing_example :
  @is_border_spacing example.collaborator (PyStr "10px  20%") =
    Return (PyTuple [example.px 10; example.percent 20]).
Proof.
  destruct (@is_border_spacing_one_or_two_lengths example.collaborator
              (PyStr "10px  20%")) as [Hvalues Hcount].
  rewrite Hvalues in Hcount. exact Hcount.
Defined.

(** The two modes at work: a check at once, and a validator for later. *)
Lemma immediate_and_factory_example :
  @is_number cpython.float_text (PyStr "1.5") None None =
    Checked (Return (PyFloat (S754_finite false 6755399441055744 (-52))))
  /\ run (@is_integer cpython.float_text PyNone (Some (NInt 0)) None)
         (PyStr "12") = Return (PyInt 12).
Proof.
  split.
  - destruct (@mode_selected_by_bounds cpython.float_text (PyStr "1.5")
                None None) as [[Hnumber _] _].
    rewrite Hnumber. vm_compute. reflexivity.
  - destruct (@mode_selected_by_bounds cpython.float_text PyNone
                (Some (NInt 0)) None) as [[_ Hinteger] _].
    rewrite Hinteger. reflexivity.
Defined.

(** C3 at work: 10 lies within 0..10. *)
Lemma bound_is_inclusive_example :
  @_numeric_validator cpython.float_text (PyInt 10) py_int_type
    (Some (NInt 0)) (Some (NInt 10)) = Return (PyInt 10).
Proof.
  destruct (@numeric_validator_inclusive_bounds cpython.float_text
              (PyInt 10) py_int_type (Some (NInt 0)) (Some (NInt 10)))
    as (_ & Hnum & _).
  destruct (Hnum (NInt 10) eq_refl) as (_ & _ & Hreturn).
  apply Hreturn; reflexivity.
Defined.

(** C3 as stated: 5 is above the maximum 0, and the error names the minimum
    10, below which it also is. *)
Lemma above_maximum_reported_as_below_minimum :
  num_gt (NInt 5) (NInt 0) = true
  /\ run (@is_integer cpython.float_text PyNone
            (Some (NInt 10)) (Some (NInt 0))) (PyInt 5) =
       Raise (mk_exn ValidationError "Value 5 below minimum value 10").
Proof. split; reflexivity. Qed.

(** C4 at work: a percentage is returned as [is_length] parsed it. *)
Lemma is_percentage_example :
  @is_percentage cpython.float_text example.collaborator (PyStr "30%") =
    Return (example.percent 30).
Proof.
  destruct (@is_percentage_is_length_then_Percent cpython.float_text
              example.collaborator (PyStr "30%")) as (Hiff & _ & _).
  apply Hiff. split; reflexivity.
Defined.

(** C6 at work, with the example parser. *)
Lemma all_choices_message_example :
  @validated_property_set cpython.float_text example.collaborator
    "prop" all_choices (PyStr "invalid") =
    Raise (mk_exn ValidationError
      "Invalid value 'invalid' for CSS property 'prop'; Valid values are: <color>, <integer>, <length>, <number>, <percentage>, a, b, inherit, initial, none, revert, unset").
Proof.
  apply (@all_choices_message cpython.float_text example.collaborator).
  - reflexivity.
  - eexists; split; reflexivity.
  - eexists; split; reflexivity.
Defined.

Lemma example_units_raises_ValueError token error :
  example.units token = Raise error ->
  issubclass (exn_type error) ValueError = true.
Proof.
  unfold example.units, example.unknown, raise.
  destruct token as [| | | | s | | | | o]; try (intros [= <-]; reflexivity);
    try discriminate.
  - destruct (option_map int_of_string (example.without_suffix "px" s))
      as [[|] |];
      destruct (option_map int_of_string (example.without_suffix "%" s))
        as [[|] |];
      destruct (int_of_string s);
      try discriminate; intros [= <-]; reflexivity.
  - destruct (ob_type o); try discriminate; intros [= <-]; reflexivity.
Qed.

(** C9 at work: a length value has no [split]; a list of one unknown size
    fails with a ValidationError. *)
Lemma is_border_spacing_shapes_example :
  @is_border_spacing example.collaborator (example.px 3) =
    Raise (mk_exn AttributeError "'Unit' object has no attribute 'split'")
  /\ exn_type (mk_exn ValidationError "Unknown size wide") = ValidationError.
Proof.
  split.
  - exact (proj1 (@is_border_spacing_AttributeError_outside_shapes
                    example.collaborator (example.px 3))).
  - apply (proj1 (proj2 (@is_border_spacing_AttributeError_outside_shapes
                           example.collaborator (PyList [PyStr "wide"])))
             example_units_raises_ValueError eq_refl).
    reflexivity.
Defined.

(** C10 as stated: NaN is a float that [is_integer] rejects. *)
Lemma is_integer_rejects_NaN :
  @is_integer cpython.float_text (PyFloat S754_nan) None None =
    Checked (Raise (mk_exn ValidationError "Cannot coerce nan to int")).
Proof. reflexivity. Qed.

(** C7 at work: the OverflowError of [int(float(inf))] is the one the
    coercion raised. *)
Lemma escaping_exception_example :
  exn_type (mk_exn OverflowError "cannot convert float infinity to integer")
    = ValidationError
  \/ (@coerce cpython.float_text py_int_type (PyFloat (S754_infinity false)) =
        Raise (mk_exn OverflowError
                 "cannot convert float infinity to integer")
      /\ exn_type
           (mk_exn OverflowError "cannot convert float infinity to integer")
         = OverflowError).
Proof.
  destruct (@validators_raise_ValidationError cpython.float_text
              example.collaborator) as (_ & _ & Hinteger & _).
  apply (Hinteger (PyFloat (S754_infinity false)) None None PyNone).
  reflexivity.
Defined.

(** C10 at work: a string with a decimal point is no int literal. *)
Lemma is_integer_on_a_fraction_string_example :
  @is_integer cpython.float_text (PyStr "-0.5") None None =
    Checked (Raise (mk_exn ValidationError "Cannot coerce -0.5 to int")).
Proof.
  destruct (@is_integer_truncates_floats_rejects_fraction_strings
              cpython.float_text) as (_ & _ & _ & Hstring & _).
  apply (Hstring "-0.5"). reflexivity.
Defined.

(* ===================================================================== *)
(** * Further properties of the validators                                *)
(* ===================================================================== *)

Section NumericLaws.
Context {float_text : FloatText}.

Lemma coerce_again t value num :
  coerce t value = Return num -> coerce t (num_to_val num) = Return num.
Proof.
  unfold coerce. destruct t.
  - destruct (py_float value) as [f |]; simpl; [| discriminate].
    intros [= <-]. reflexivity.
  - destruct (py_int value) as [z |]; simpl; [| discriminate].
    intros [= <-]. reflexivity.
Qed.

(** What [_numeric_validator] returns is the coerced value, and it lies
    within the bounds. *)
Lemma numeric_validator_Return num_value t min_value max_value w :
  _numeric_validator num_value t min_value max_value = Return w ->
  exists num,
    coerce t num_value = Return num /\ w = num_to_val num
    /\ below_minimum num min_value = false
    /\ above_maximum num max_value = false.
Proof.
  rewrite numeric_validator_steps.
  destruct (coerce t num_value) as [num | e].
  - destruct (below_minimum num min_value) eqn:Hlo; [discriminate |].
    destruct (above_maximum num max_value) eqn:Hhi; [discriminate |].
    intros [= <-]. now exists num.
  - destruct (caught_by_numeric_validator e); discriminate.
Qed.

(** X1: a value that a numeric validator has returned is returned unchanged
    when it is validated again under the same bounds. *)
Theorem numeric_validator_idempotent (num_value : pyval) (t : numeric_type)
    (min_value max_value : option pynum) (w : pyval) :
  _numeric_validator num_value t min_value max_value = Return w ->
  _numeric_validator w t min_value max_value = Return w.
Proof.
  intros H.
  destruct (numeric_validator_Return _ _ _ _ _ H)
    as (num & Hnum & -> & Hlo & Hhi).
  rewrite numeric_validator_steps, (coerce_again _ _ _ Hnum), Hlo, Hhi.
  reflexivity.
Qed.

(** X2: bounds only reject.  A value accepted under bounds is returned as
    the same value when no bound is given, and an exception of the check
    without bounds (a failed coercion) is raised under any bounds. *)
Theorem bounds_only_reject (num_value : pyval) (t : numeric_type)
    (min_value max_value : option pynum) :
  (forall w,
      _numeric_validator num_value t min_value max_value = Return w ->
      _numeric_validator num_value t None None = Return w)
  /\ (forall error,
      _numeric_validator num_value t None None = Raise error ->
      _numeric_validator num_value t min_value max_value = Raise error).
Proof.
  split.
  - intros w H.
    destruct (numeric_validator_Return _ _ _ _ _ H) as (num & Hnum & -> & _).
    now rewrite numeric_validator_no_bounds, Hnum.
  - intros error. rewrite numeric_validator_no_bounds, numeric_validator_steps.
    destruct (coerce t num_value) as [num | e]; [discriminate |].
    intros H. exact H.
Qed.

(** X3: the value that [is_integer] and its validators return is
    [int(value)] as an int, and the one of [is_number] is [float(value)] as
    a float, whatever the type of the value given. *)
Theorem numeric_validator_returns_the_coercion (value : pyval)
    (min_value max_value : option pynum) (later w : pyval) :
  (run (is_integer value min_value max_value) later = Return w ->
   exists z,
     w = PyInt z
     /\ py_int (if bounds_given min_value max_value then later else value)
        = Return z)
  /\ (run (is_number value min_value max_value) later = Return w ->
      exists f,
        w = PyFloat f
        /\ py_float (if bounds_given min_value max_value then later else value)
           = Return f).
Proof.
  split.
  - rewrite run_is_integer. intros H.
    destruct (numeric_validator_Return _ _ _ _ _ H) as (num & Hnum & -> & _).
    unfold coerce in Hnum.
    destruct (py_int _) as [z |]; [| discriminate].
    injection Hnum as <-. now exists z.
  - rewrite run_is_number. intros H.
    destruct (numeric_validator_Return _ _ _ _ _ H) as (num & Hnum & -> & _).
    unfold coerce in Hnum.
    destruct (py_float _) as [f |]; [| discriminate].
    injection Hnum as <-. now exists f.
Qed.

(** X4: with int bounds, [is_integer] returns on a value whose [int()] is
    [z] exactly when [z] lies between the bounds given, both included, and
    then it returns [z]: the bounds are compared with [int(value)], not
    with the value.  It returns nothing when the minimum exceeds the
    maximum. *)
Theorem is_integer_accepts_exactly_the_range (num_value : pyval) (z : Z)
    (lo hi : option Z) :
  py_int num_value = Return z ->
  (_numeric_validator num_value py_int_type
     (option_map NInt lo) (option_map NInt hi) = Return (PyInt z)
   <-> (forall a, lo = Some a -> a <= z) /\ (forall b, hi = Some b -> z <= b))
  /\ (forall a b w,
        lo = Some a -> hi = Some b -> b < a ->
        _numeric_validator num_value py_int_type
          (option_map NInt lo) (option_map NInt hi) <> Return w).
Proof.
  intros Hint.
  assert (Hsteps :
    _numeric_validator num_value py_int_type
      (option_map NInt lo) (option_map NInt hi) =
    if below_minimum (NInt z) (option_map NInt lo) then
      raise ValidationError
        ("Value " ++ num_str (NInt z) ++ " below minimum value "
         ++ match option_map NInt lo with
            | Some l => num_str l | None => "" end)
    else if above_maximum (NInt z) (option_map NInt hi) then
      raise ValidationError
        ("Value " ++ num_str (NInt z) ++ " above maximum value "
         ++ match option_map NInt hi with
            | Some h => num_str h | None => "" end)
    else Return (PyInt z)).
  { rewrite numeric_validator_steps. unfold coerce. now rewrite Hint. }
  assert (Hlo : below_minimum (NInt z) (option_map NInt lo) = false
                <-> forall a, lo = Some a -> a <= z).
  { destruct lo as [a |]; simpl.
    - rewrite num_lt_int, Z.ltb_ge. split; [now intros H ? [= <-] | auto].
    - split; [discriminate | reflexivity]. }
  assert (Hhi : above_maximum (NInt z) (option_map NInt hi) = false
                <-> forall b, hi = Some b -> z <= b).
  { destruct hi as [b |]; simpl.
    - rewrite num_gt_int, Z.ltb_ge. split; [now intros H ? [= <-] | auto].
    - split; [discriminate | reflexivity]. }
  rewrite Hsteps. split.
  - destruct (below_minimum _ _); [| destruct (above_maximum _ _)].
    + split; [discriminate |]. intros [H _]. apply Hlo in H. discriminate.
    + split; [discriminate |]. intros [_ H]. apply Hhi in H. discriminate.
    + split; [| reflexivity]. intros _. split; [now apply Hlo | now apply Hhi].
  - intros a b w -> -> Hab.
    destruct (below_minimum _ _) eqn:El; [discriminate |].
    destruct (above_maximum _ _) eqn:Eh; [discriminate |].
    pose proof (proj1 Hlo eq_refl a eq_refl).
    pose proof (proj1 Hhi eq_refl b eq_refl). lia.
Qed.

(** X5: NaN is outside the order of numbers.  A value whose [float()] is
    NaN is returned by [is_number] under every pair of bounds, and a bound
    that is NaN rejects no number. *)
Theorem NaN_passes_every_range_check (num_value : pyval)
    (min_value max_value : option pynum) :
  (py_float num_value = Return S754_nan ->
   _numeric_validator num_value py_float_type min_value max_value
     = Return (PyFloat S754_nan))
  /\ (forall num,
        below_minimum num (Some (NFloat S754_nan)) = false
        /\ above_maximum num (Some (NFloat S754_nan)) = false).
Proof.
  split.
  - intros H. rewrite numeric_validator_steps. unfold coerce. rewrite H.
    simpl. destruct min_value, max_value; reflexivity.
  - intros num. unfold below_minimum, above_maximum, num_lt, num_gt.
    simpl. destruct (num_dyadic num); split; reflexivity.
Qed.

End NumericLaws.

(** ** The decimal text of an int *)

Lemma isspace_number_isspace c : isspace c = false -> isspace_number c = false.
Proof.
  unfold isspace, isspace_number. set (n := code c). simpl.
  intros H. apply orb_false_elim in H as [H H160].
  apply orb_false_elim in H as [H H133].
  apply orb_false_elim in H as [H913 H2832].
  rewrite H913, H133, H160. simpl. rewrite !orb_false_r.
  destruct (Z.eqb_spec n 32) as [E | _]; [| reflexivity].
  rewrite E in H2832. discriminate H2832.
Qed.

Lemma strip_number_no_space s : has_space s = false -> strip_number s = s.
Proof.
  intros H. unfold strip_number.
  assert (Hl : lstrip isspace_number s = s).
  { destruct s as [| c rest]; simpl; [reflexivity |].
    simpl in H. apply orb_false_elim in H as [Hc _].
    now rewrite (isspace_number_isspace c Hc). }
  rewrite Hl. clear Hl.
  induction s as [| c rest IH]; simpl; [reflexivity |].
  simpl in H. apply orb_false_elim in H as [Hc Hrest].
  rewrite (IH Hrest), (isspace_number_isspace c Hc).
  destruct rest; reflexivity.
Qed.

Lemma string_of_uint_no_space u :
  has_space (NilEmpty.string_of_uint u) = false.
Proof. induction u; simpl; try reflexivity; exact IHu. Qed.

Lemma parse_digits_uint_acc u acc :
  parse_digits (NilEmpty.string_of_uint u) (Z.pos acc) true
  = Some (Z.pos (Pos.of_uint_acc u acc)).
Proof.
  revert acc. induction u; intros acc; [reflexivity | ..];
    cbn [NilEmpty.string_of_uint parse_digits Pos.of_uint_acc];
    match goal with
    | |- context [isdigit ?c] =>
        change (isdigit c) with true; cbv iota;
        change (code c - 48) with (code c - 48)
    end;
    rewrite <- IHu; f_equal; vm_compute (code _ - 48); lia.
Qed.

Lemma parse_digits_uint u after_digit :
  u <> Nil \/ after_digit = true ->
  parse_digits (NilEmpty.string_of_uint u) 0 after_digit
  = Some (Z.of_N (Pos.of_uint u)).
Proof.
  revert after_digit. induction u; intros after_digit H.
  - destruct H as [H | ->]; [now destruct H | reflexivity].
  - cbn [NilEmpty.string_of_uint parse_digits Pos.of_uint].
    change (isdigit "0") with true. cbv iota.
    change (10 * 0 + (code "0" - 48)) with 0. apply IHu. now right.
  - exact (parse_digits_uint_acc u 1).
  - exact (parse_digits_uint_acc u 2).
  - exact (parse_digits_uint_acc u 3).
  - exact (parse_digits_uint_acc u 4).
  - exact (parse_digits_uint_acc u 5).
  - exact (parse_digits_uint_acc u 6).
  - exact (parse_digits_uint_acc u 7).
  - exact (parse_digits_uint_acc u 8).
  - exact (parse_digits_uint_acc u 9).
Qed.

Lemma scan_sign_digits u :
  u <> Nil ->
  scan_sign (NilEmpty.string_of_uint u) = (false, NilEmpty.string_of_uint u).
Proof. destruct u; intros H; [now destruct H | reflexivity ..]. Qed.

Lemma int_of_string_digits p :
  let digits := NilEmpty.string_of_uint (Pos.to_uint p) in
  int_of_string digits = Some (Z.pos p)
  /\ int_of_string (String "+" digits) = Some (Z.pos p)
  /\ int_of_string (String "-" digits) = Some (Z.neg p).
Proof.
  pose proof (Unsigned.to_uint_nonnil p) as Hnil.
  pose proof (DecimalPos.Unsigned.of_to p) as Hof.
  pose proof (string_of_uint_no_space (Pos.to_uint p)) as Hspace.
  cbv zeta. unfold int_of_string.
  rewrite !strip_number_no_space by exact Hspace.
  rewrite scan_sign_digits by exact Hnil. simpl.
  rewrite parse_digits_uint by now left. rewrite Hof. now repeat split.
Qed.

Lemma int_of_string_int_str z : int_of_string (int_str z) = Some z.
Proof.
  destruct z as [| p | p]; [reflexivity | |];
    destruct (int_of_string_digits p) as (Hplain & _ & Hminus);
    unfold int_str; simpl;
    destruct (Pos.to_uint p) eqn:E;
    solve [now destruct (Unsigned.to_uint_nonnil p) | assumption].
Qed.

Section IntTextLaws.
Context {float_text : FloatText}.

(** X6: [is_integer] reads the decimal text of an int back as that int:
    [is_integer(str(z))] returns [z], as [is_integer(z)] does, and an
    explicit plus sign changes nothing. *)
Theorem is_integer_reads_the_text_of_an_int (z : Z) :
  is_integer (PyStr (py_str (PyInt z))) None None = Checked (Return (PyInt z))
  /\ is_integer (PyInt z) None None = Checked (Return (PyInt z))
  /\ (0 < z ->
      is_integer (PyStr (String "+" (py_str (PyInt z)))) None None
        = Checked (Return (PyInt z))).
Proof.
  split; [| split].
  - unfold is_integer. rewrite numeric_validator_no_bounds.
    unfold coerce, py_int. simpl py_str.
    now rewrite int_of_string_int_str.
  - reflexivity.
  - intros Hz. destruct z as [| p | p]; try lia.
    destruct (int_of_string_digits p) as (_ & Hplus & _).
    unfold is_integer. rewrite numeric_validator_no_bounds.
    unfold coerce, py_int. simpl py_str. unfold int_str. simpl.
    assert (E : NilZero.string_of_uint (Pos.to_uint p)
                = NilEmpty.string_of_uint (Pos.to_uint p)).
    { destruct (Pos.to_uint p) eqn:E; try reflexivity.
      now destruct (Unsigned.to_uint_nonnil p). }
    rewrite E, Hplus. reflexivity.
Qed.

End IntTextLaws.

(** ** Whitespace and tokens *)

Lemma split_lstrip s : split (lstrip isspace s) = split s.
Proof.
  induction s as [| c rest IH]; [reflexivity |].
  cbn [lstrip]. destruct (isspace c) eqn:Hc; [| reflexivity].
  rewrite IH. cbn [split]. now rewrite Hc.
Qed.

Lemma rstrip_cons space c rest :
  rstrip space (String c rest) =
    match rstrip space rest with
    | EmptyString => if space c then EmptyString else String c EmptyString
    | kept => String c kept
    end.
Proof. reflexivity. Qed.

Lemma split_cons c rest :
  split (String c rest) =
    if isspace c then split rest
    else
      match rest with
      | EmptyString => [String c EmptyString]
      | String d _ =>
          if isspace d then String c EmptyString :: split rest
          else
            match split rest with
            | tok :: toks => String c tok :: toks
            | [] => [String c EmptyString]
            end
      end.
Proof. reflexivity. Qed.

Lemma split_rstrip s : split (rstrip isspace s) = split s.
Proof.
  induction s as [| c rest IH]; [reflexivity |].
  rewrite rstrip_cons.
  destruct (rstrip isspace rest) as [| k kept] eqn:Er.
  - (* the rest is blank *)
    change (split EmptyString) with (@nil string) in IH. symmetry in IH.
    destruct (isspace c) eqn:Hc.
    + rewrite (split_cons c rest), Hc. now rewrite IH.
    + rewrite (split_cons c rest), (split_cons c EmptyString), Hc.
      destruct rest as [| d rest']; [reflexivity |].
      destruct (isspace d); now rewrite IH.
  - destruct rest as [| d rest']; [discriminate Er |].
    assert (Hk : k = d).
    { rewrite rstrip_cons in Er.
      destruct (rstrip isspace rest'); [destruct (isspace d) |];
        congruence. }
    subst k. rewrite (split_cons c (String d kept)), (split_cons c (String d rest')).
    now rewrite IH.
Qed.

Lemma split_strip s : split (strip s) = split s.
Proof. unfold strip. now rewrite split_rstrip, split_lstrip. Qed.

(** A token split is itself. *)
Lemma split_token tok :
  tok <> EmptyString -> has_space tok = false -> split tok = [tok].
Proof.
  induction tok as [| c rest IH]; [congruence |]. intros _ H.
  simpl in H. apply orb_false_elim in H as [Hc Hrest].
  rewrite split_cons, Hc. destruct rest as [| d rest']; [reflexivity |].
  pose proof Hrest as Hd. simpl in Hd. apply orb_false_elim in Hd as [Hd _].
  rewrite Hd, IH by (congruence || exact Hrest). reflexivity.
Qed.

(** A token, then whitespace, then a text: the token and the tokens of the
    text. *)
Lemma split_token_space tok c rest :
  tok <> EmptyString -> has_space tok = false -> isspace c = true ->
  split (tok ++ String c rest) = tok :: split rest.
Proof.
  intros Hne Htok Hc. induction tok as [| a tok' IH]; [congruence |].
  simpl in Htok. apply orb_false_elim in Htok as [Ha Htok'].
  cbn [append]. rewrite split_cons, Ha. destruct tok' as [| b tok''].
  - cbn [append]. rewrite Hc, (split_cons c rest), Hc. reflexivity.
  - cbn [append] in *.
    pose proof Htok' as Hb. simpl in Hb. apply orb_false_elim in Hb as [Hb _].
    rewrite Hb, IH by (congruence || exact Htok'). reflexivity.
Qed.

Section BorderSpacingLaws.
Context {collaborator : parser.Parser}.

Lemma is_border_spacing_of_values value values :
  border_spacing_values value = Return values ->
  is_border_spacing value = is_border_spacing (PyList values).
Proof.
  intros H. unfold is_border_spacing. rewrite H. reflexivity.
Qed.

(** X7: [is_border_spacing] returns exactly when it reads one or two
    values and [is_length] returns on each of them; what it returns is the
    tuple of these lengths in order. *)
Theorem is_border_spacing_returns_the_lengths (value r : pyval) :
  is_border_spacing value = Return r <->
  exists values lengths,
    border_spacing_values value = Return values
    /\ (length values = 1 \/ length values = 2)%nat
    /\ Forall2 (fun x h => is_length x = Return h) values lengths
    /\ r = PyTuple lengths.
Proof.
  pose proof (is_border_spacing_by_count value) as H.
  destruct (border_spacing_values value) as [values | e].
  - destruct values as [| v0 [| v1 [| v2 rest]]]; rewrite H; clear H.
    + split; [discriminate |].
      intros (vs & ls & [= <-] & [Hn | Hn] & _); discriminate Hn.
    + split.
      * destruct (is_length v0) as [h |] eqn:E0; simpl; [| discriminate].
        intros [= <-]. exists [v0], [h].
        repeat split; [now left | now repeat constructor].
      * intros (vs & ls & [= <-] & _ & HF & ->).
        inversion HF as [| ? h ? ? E0 HF']; subst. inversion HF'; subst.
        now rewrite E0.
    + split.
      * destruct (is_length v0) as [h |] eqn:E0; simpl; [| discriminate].
        destruct (is_length v1) as [w |] eqn:E1; simpl; [| discriminate].
        intros [= <-]. exists [v0; v1], [h; w].
        repeat split; [now right | now repeat constructor].
      * intros (vs & ls & [= <-] & _ & HF & ->).
        inversion HF as [| ? h ? ? E0 HF']; subst.
        inversion HF' as [| ? w ? ? E1 HF'']; subst. inversion HF''; subst.
        now rewrite E0, E1.
    + split; [discriminate |].
      intros (vs & ls & [= <-] & [Hn | Hn] & _); discriminate Hn.
  - rewrite H. split; [discriminate |].
    intros (vs & ls & Hv & _); discriminate Hv.
Qed.

(** X8: the form of the input does not matter, only its values: a tuple
    and a list with the same items, a number and the sequence of that one
    number, a str and the list of its tokens give the same result. *)
Theorem is_border_spacing_reads_only_the_values :
  (forall items,
      is_border_spacing (PyTuple items) = is_border_spacing (PyList items))
  /\ (forall value,
        isinstance_int_float value = true ->
        is_border_spacing value = is_border_spacing (PyList [value]))
  /\ (forall s,
        is_border_spacing (PyStr s)
          = is_border_spacing (PyList (map PyStr (split s)))).
Proof.
  split; [| split].
  - reflexivity.
  - intros value H. apply is_border_spacing_of_values.
    destruct value; try discriminate H; reflexivity.
  - intros s. apply is_border_spacing_of_values, border_spacing_values_str.
Qed.

(** X9: in a str only the tokens count.  Whitespace around the text
    changes nothing, a text that is blank fails on the count, and two
    tokens joined by a whitespace character are read as the sequence of the
    two. *)
Theorem is_border_spacing_ignores_the_whitespace :
  (forall s, is_border_spacing (PyStr (strip s)) = is_border_spacing (PyStr s))
  /\ (forall s,
        strip s = EmptyString ->
        is_border_spacing (PyStr s) =
          Raise (mk_exn ValidationError
                   "Should provide 1 or 2 <length> values!"))
  /\ (forall h v c,
        h <> EmptyString -> has_space h = false ->
        v <> EmptyString -> has_space v = false ->
        isspace c = true ->
        is_border_spacing (PyStr (h ++ String c v))
          = is_border_spacing (PyList [PyStr h; PyStr v])).
Proof.
  split; [| split].
  - intros s.
    rewrite (is_border_spacing_of_values _ _ (border_spacing_values_str s)).
    rewrite (is_border_spacing_of_values _ _
               (border_spacing_values_str (strip s))).
    now rewrite split_strip.
  - intros s Hblank.
    rewrite (is_border_spacing_of_values _ _ (border_spacing_values_str s)).
    rewrite <- split_strip, Hblank. reflexivity.
  - intros h v c Hh Hhs Hv Hvs Hc.
    rewrite (is_border_spacing_of_values _ _
               (border_spacing_values_str (h ++ String c v))).
    rewrite split_token_space by assumption.
    now rewrite split_token by assumption.
Qed.

(** What [is_border_spacing] returns, by the count of the values. *)
Lemma is_border_spacing_Return value r :
  is_border_spacing value = Return r ->
  (exists v0 h,
      border_spacing_values value = Return [v0]
      /\ is_length v0 = Return h /\ r = PyTuple [h])
  \/ (exists v0 v1 h w,
        border_spacing_values value = Return [v0; v1]
        /\ is_length v0 = Return h /\ is_length v1 = Return w
        /\ r = PyTuple [h; w]).
Proof.
  pose proof (is_border_spacing_by_count value) as H.
  destruct (border_spacing_values value) as [values | e];
    [| rewrite H; discriminate].
  destruct values as [| v0 [| v1 [| v2 rest]]]; rewrite H; clear H;
    try discriminate.
  - destruct (is_length v0) as [h |] eqn:E0; simpl; [| discriminate].
    intros [= <-]. left. now exists v0, h.
  - destruct (is_length v0) as [h |] eqn:E0; simpl; [| discriminate].
    destruct (is_length v1) as [w |] eqn:E1; simpl; [| discriminate].
    intros [= <-]. right. now exists v0, v1, h, w.
Qed.

(** X11: [is_color] hands the value to [parser.color] and returns what it
    returns; a ValueError of the parser is raised again as a ValidationError
    with the same text, so that no ValueError other than a ValidationError
    leaves [is_color], and any other exception passes unchanged. *)
Theorem is_color_delegates_to_parser (value : pyval) :
  match parser.color value with
  | Return parsed => is_color value = Return parsed
  | Raise error =>
      if issubclass (exn_type error) ValueError
      then is_color value = Raise (mk_exn ValidationError (exn_str error))
      else is_color value = Raise error
  end
  /\ (forall error,
        is_color value = Raise error ->
        issubclass (exn_type error) ValueError = true ->
        exn_type error = ValidationError).
Proof.
  rewrite is_color_wrapped. split.
  - destruct (parser.color value) as [parsed | error]; simpl; [reflexivity |].
    destruct (issubclass (exn_type error) ValueError); reflexivity.
  - intros error H Hsub.
    apply wrapped_Raise in H as [H | [_ H]]; [exact H | congruence].
Qed.

End BorderSpacingLaws.

Section Revalidation.
Context {float_text : FloatText} {collaborator : parser.Parser}.

Hypothesis units_keeps_parsed :
  forall value parsed,
    parser.units value = Return parsed -> parser.units parsed = Return parsed.
Hypothesis color_keeps_parsed :
  forall value parsed,
    parser.color value = Return parsed -> parser.color parsed = Return parsed.

Lemma wrapped_Return {A} (r : result A) a : wrapped r = Return a -> r = Return a.
Proof.
  destruct r as [| e]; simpl; [auto |].
  destruct (issubclass (exn_type e) ValueError); discriminate.
Qed.

Lemma is_length_keeps_parsed value parsed :
  is_length value = Return parsed -> is_length parsed = Return parsed.
Proof.
  rewrite !is_length_wrapped. intros H. apply wrapped_Return in H.
  now rewrite (units_keeps_parsed _ _ H).
Qed.

(** X10: with parsers that return a parsed value as it is, a value that a
    validator has returned validates to itself: [is_length],
    [is_percentage], [is_color] and [is_border_spacing] are idempotent. *)
Theorem validated_values_validate_to_themselves :
  (forall value parsed,
      is_length value = Return parsed -> is_length parsed = Return parsed)
  /\ (forall value parsed,
        is_percentage value = Return parsed ->
        is_percentage parsed = Return parsed)
  /\ (forall value parsed,
        is_color value = Return parsed -> is_color parsed = Return parsed)
  /\ (forall value r,
        is_border_spacing value = Return r ->
        is_border_spacing r = Return r).
Proof.
  split; [| split; [| split]].
  - exact is_length_keeps_parsed.
  - intros value parsed. rewrite !is_percentage_as_is_length.
    destruct (is_length value) as [p |] eqn:E; simpl; [| discriminate].
    destruct (isinstance_Percent p) eqn:Ep; [| discriminate].
    intros [= <-]. rewrite (is_length_keeps_parsed _ _ E). simpl.
    now rewrite Ep.
  - intros value parsed. rewrite !is_color_wrapped. intros H.
    apply wrapped_Return in H. now rewrite (color_keeps_parsed _ _ H).
  - intros value r H.
    apply is_border_spacing_Return in H
      as [(v0 & h & _ & E0 & ->) | (v0 & v1 & h & w & _ & E0 & E1 & ->)].
    + pose proof (is_border_spacing_by_count (PyTuple [h])) as Hc.
      simpl in Hc. rewrite Hc, (is_length_keeps_parsed _ _ E0). reflexivity.
    + pose proof (is_border_spacing_by_count (PyTuple [h; w])) as Hc.
      simpl in Hc.
      rewrite Hc, (is_length_keeps_parsed _ _ E0),
        (is_length_keeps_parsed _ _ E1). reflexivity.
Qed.

End Revalidation.

(** X12: the descriptions tell the validators apart: two validators with
    the same [description] are the same validator. *)
Theorem description_injective (f g : validator_function) :
  description f = description g -> f = g.
Proof. destruct f, g; simpl; intros H; solve [reflexivity | discriminate H]. Qed.


(** ** Texts that are no int literal *)

Lemma parse_digits_foreign c s acc after_digit :
  isdigit c = false -> Ascii.eqb c "_" = false ->
  contains c s = true -> parse_digits s acc after_digit = None.
Proof.
  intros Hdigit Hunder. revert acc after_digit.
  induction s as [| d rest IH]; simpl; intros acc after_digit H;
    [discriminate |].
  destruct (Ascii.eqb_spec c d) as [<- | Hd].
  - now rewrite Hdigit, Hunder.
  - simpl in H. destruct (isdigit d); [now apply IH |].
    destruct (Ascii.eqb d "_" && after_digit); [now apply IH | reflexivity].
Qed.

Lemma lstrip_contains space c s :
  space c = false -> contains c (lstrip space s) = contains c s.
Proof.
  intros Hc. induction s as [| d rest IH]; simpl; [reflexivity |].
  destruct (space d) eqn:Hd; [| reflexivity].
  rewrite IH. destruct (Ascii.eqb_spec c d) as [<- | _];
    [congruence | reflexivity].
Qed.

Lemma rstrip_contains space c s :
  space c = false -> contains c (rstrip space s) = contains c s.
Proof.
  intros Hc. induction s as [| d rest IH]; simpl; [reflexivity |].
  rewrite <- IH. destruct (rstrip space rest) as [| k kept]; [| reflexivity].
  destruct (space d) eqn:Hd; [| reflexivity].
  simpl. destruct (Ascii.eqb_spec c d) as [<- | _];
    [congruence | reflexivity].
Qed.

Lemma scan_sign_contains c s :
  Ascii.eqb c "+" = false -> Ascii.eqb c "-" = false ->
  contains c (snd (scan_sign s)) = contains c s.
Proof.
  intros Hplus Hminus. destruct s as [| d rest]; simpl; [reflexivity |].
  destruct (Ascii.eqb_spec d "-") as [-> | _]; [now rewrite Hminus |].
  destruct (Ascii.eqb_spec d "+") as [-> | _]; [now rewrite Hplus |].
  reflexivity.
Qed.

Lemma int_of_string_foreign c s :
  isdigit c = false -> Ascii.eqb c "_" = false ->
  Ascii.eqb c "+" = false -> Ascii.eqb c "-" = false ->
  isspace_number c = false ->
  contains c s = true -> int_of_string s = None.
Proof.
  intros Hdigit Hunder Hplus Hminus Hspace H. unfold int_of_string.
  pose proof (scan_sign_contains c (strip_number s) Hplus Hminus) as Hsign.
  destruct (scan_sign (strip_number s)) as [negative digits]. simpl in Hsign.
  rewrite (parse_digits_foreign c); [reflexivity | assumption ..|].
  rewrite Hsign. unfold strip_number.
  now rewrite rstrip_contains, lstrip_contains.
Qed.

Section RejectedInputs.
Context {float_text : FloatText}.

(** X13: a value that is neither a number nor a str (None, a tuple, a
    list, a dict, an object) is rejected by [is_number] and by [is_integer]
    under any bounds, with the ValidationError that names it and the type;
    so is the call with no argument at all, whose value is None. *)
Theorem numeric_validators_reject_other_types (value : pyval)
    (t : numeric_type) (min_value max_value : option pynum) :
  (isinstance_int_float value = false ->
   (forall s, value <> PyStr s) ->
   _numeric_validator value t min_value max_value =
     Raise (mk_exn ValidationError
              ("Cannot coerce " ++ py_str value ++ " to " ++ __name__ t)))
  /\ is_number PyNone None None =
       Checked (Raise (mk_exn ValidationError "Cannot coerce None to float"))
  /\ is_integer PyNone None None =
       Checked (Raise (mk_exn ValidationError "Cannot coerce None to int")).
Proof.
  split; [| split; reflexivity].
  intros Hnum Hstr. rewrite numeric_validator_steps.
  destruct value; try discriminate Hnum;
    try (destruct t; reflexivity).
  now destruct (Hstr s).
Qed.

(** X14: [is_integer] takes a str only when it is made of digits,
    underscores, a sign and whitespace around: a text that holds any other
    character (a decimal point, an exponent, a letter) is rejected with the
    ValidationError that names the text, under any bounds. *)
Theorem is_integer_rejects_texts_with_foreign_characters (text : string)
    (c : ascii) (min_value max_value : option pynum) :
  contains c text = true ->
  isdigit c = false ->
  Ascii.eqb c "_" = false -> Ascii.eqb c "+" = false ->
  Ascii.eqb c "-" = false -> isspace_number c = false ->
  _numeric_validator (PyStr text) py_int_type min_value max_value =
    Raise (mk_exn ValidationError ("Cannot coerce " ++ text ++ " to int")).
Proof.
  intros Hin Hdigit Hunder Hplus Hminus Hspace.
  rewrite numeric_validator_steps. unfold coerce, py_int.
  now rewrite (int_of_string_foreign c text).
Qed.

End RejectedInputs.

(* ===================================================================== *)
(** ** The further properties at work                                     *)
(* ===================================================================== *)

Lemma example_units_keeps_parsed value parsed :
  example.units value = Return parsed -> example.units parsed = Return parsed.
Proof.
  unfold example.units at 1. unfold example.unknown, raise.
  destruct value as [| | z | | s | | | | o]; try discriminate.
  - intros [= <-]. reflexivity.
  - destruct (option_map int_of_string (example.without_suffix "px" s))
      as [[|] |];
      destruct (option_map int_of_string (example.without_suffix "%" s))
        as [[|] |];
      destruct (int_of_string s);
      try discriminate; intros [= <-]; reflexivity.
  - destruct (ob_type o) eqn:E; try discriminate;
      intros [= <-]; simpl; now rewrite E.
Qed.

Lemma example_color_keeps_parsed value parsed :
  example.color value = Return parsed -> example.color parsed = Return parsed.
Proof.
  unfold example.color at 1. unfold example.unknown, raise.
  destruct value as [| | | | s | | | | o]; try discriminate.
  - destruct s as [| c hex]; [discriminate |].
    destruct (Ascii.eqb_spec c "#") as [-> | Hc].
    + destruct ((String.length hex =? 6)%nat && example.all_hex hex);
        [| discriminate].
      intros [= <-]. reflexivity.
    + destruct c as [[] [] [] [] [] [] [] []]; try discriminate.
      now destruct Hc.
  - destruct (ob_type o) eqn:E; try discriminate;
      intros [= <-]; simpl; now rewrite E.
Qed.

(** X1 at work: the int read from a text validates to itself. *)
Lemma numeric_validator_idempotent_example :
  @_numeric_validator cpython.float_text (PyInt 12) py_int_type
    (Some (NInt 0)) (Some (NInt 100)) = Return (PyInt 12).
Proof.
  apply (@numeric_validator_idempotent cpython.float_text (PyStr " 12 ")).
  reflexivity.
Defined.

(** X2 at work: 7 passes 0..10, and passes without bounds. *)
Lemma bounds_only_reject_example :
  @_numeric_validator cpython.float_text (PyStr "7") py_int_type None None
    = Return (PyInt 7).
Proof.
  apply (proj1 (@bounds_only_reject cpython.float_text (PyStr "7")
                  py_int_type (Some (NInt 0)) (Some (NInt 10)))).
  reflexivity.
Defined.

(** X3 at work: the bool True is returned as the int 1. *)
Lemma numeric_validator_returns_the_coercion_example :
  exists z, PyInt 1 = PyInt z /\ py_int (PyBool true) = Return z.
Proof.
  apply (proj1 (@numeric_validator_returns_the_coercion cpython.float_text
                  (PyBool true) None None PyNone (PyInt 1))).
  reflexivity.
Defined.

(** X4 at work: the float 10.7 passes the maximum 10, as its int is 10. *)
Lemma is_integer_accepts_exactly_the_range_example :
  @_numeric_validator cpython.float_text (PyFloat float_10_7) py_int_type
    (option_map NInt (Some 0)) (option_map NInt (Some 10)) = Return (PyInt 10).
Proof.
  apply (proj1 (@is_integer_accepts_exactly_the_range cpython.float_text
                  (PyFloat float_10_7) 10 (Some 0) (Some 10) eq_refl)).
  split; intros ? [= <-]; lia.
Defined.

(** X5 at work: NaN passes the range 0..1. *)
Lemma NaN_passes_every_range_check_example :
  @_numeric_validator cpython.float_text (PyStr "nan") py_float_type
    (Some (NInt 0)) (Some (NInt 1)) = Return (PyFloat S754_nan).
Proof.
  apply (proj1 (@NaN_passes_every_range_check cpython.float_text
                  (PyStr "nan") (Some (NInt 0)) (Some (NInt 1)))).
  reflexivity.
Defined.

(** X6 at work: the text +42. *)
Lemma is_integer_reads_the_text_of_an_int_example :
  @is_integer cpython.float_text (PyStr "+42") None None
    = Checked (Return (PyInt 42)).
Proof.
  apply (proj2 (proj2 (@is_integer_reads_the_text_of_an_int
                         cpython.float_text 42))).
  reflexivity.
Defined.

(** X7 at work: one value, one length. *)
Lemma is_border_spacing_returns_the_lengths_example :
  @is_border_spacing example.collaborator (PyInt 3)
    = Return (PyTuple [example.px 3]).
Proof.
  apply (proj2 (@is_border_spacing_returns_the_lengths example.collaborator
                  (PyInt 3) (PyTuple [example.px 3]))).
  exists [PyInt 3], [example.px 3].
  repeat split; [now left | now repeat constructor].
Defined.

(** X8 at work: the int 3 is read as the list of 3. *)
Lemma is_border_spacing_reads_only_the_values_example :
  @is_border_spacing example.collaborator (PyInt 3)
    = @is_border_spacing example.collaborator (PyList [PyInt 3]).
Proof.
  apply (proj1 (proj2 (@is_border_spacing_reads_only_the_values
                         example.collaborator))).
  reflexivity.
Defined.

(** X9 at work: two tokens and a tab. *)
Lemma is_border_spacing_ignores_the_whitespace_example :
  @is_border_spacing example.collaborator
     (PyStr ("10px" ++ String (ascii_of_N 9) "20%"))
    = @is_border_spacing example.collaborator
        (PyList [PyStr "10px"; PyStr "20%"]).
Proof.
  apply (proj2 (proj2 (@is_border_spacing_ignores_the_whitespace
                         example.collaborator)));
    solve [discriminate | reflexivity].
Defined.

(** X10 at work, with the example parser. *)
Lemma validated_values_validate_to_themselves_example :
  @is_border_spacing example.collaborator
     (PyTuple [example.px 10; example.percent 20])
    = Return (PyTuple [example.px 10; example.percent 20]).
Proof.
  apply (proj2 (proj2 (proj2
           (@validated_values_validate_to_themselves cpython.float_text
              example.collaborator example_units_keeps_parsed
              example_color_keeps_parsed)))
           (PyStr "10px 20%")).
  reflexivity.
Defined.

(** X11 at work: the ValueError of the colour parser comes out as a
    ValidationError. *)
Lemma is_color_delegates_to_parser_example :
  exn_type (mk_exn ValidationError "Unknown color red") = ValidationError.
Proof.
  apply (proj2 (@is_color_delegates_to_parser example.collaborator
                  (PyStr "red"))); reflexivity.
Defined.

(** X12 at work. *)
Lemma description_injective_example : fn_is_length = fn_is_length.
Proof. apply description_injective. reflexivity. Defined.

(** X13 at work: a list is no number. *)
Lemma numeric_validators_reject_other_types_example :
  @_numeric_validator cpython.float_text (PyList [PyInt 1; PyStr "a"])
    py_float_type (Some (NInt 0)) None =
    Raise (mk_exn ValidationError "Cannot coerce [1, 'a'] to float").
Proof.
  apply (proj1 (@numeric_validators_reject_other_types cpython.float_text
                  (PyList [PyInt 1; PyStr "a"]) py_float_type
                  (Some (NInt 0)) None));
    [reflexivity | discriminate].
Defined.

(** X14 at work: an exponent is no part of an int literal. *)
Lemma is_integer_rejects_texts_with_foreign_characters_example :
  @_numeric_validator cpython.float_text (PyStr "1e3") py_int_type
    None (Some (NInt 5000)) =
    Raise (mk_exn ValidationError "Cannot coerce 1e3 to int").
Proof.
  apply (@is_integer_rejects_texts_with_foreign_characters
           cpython.float_text "1e3" "e"); reflexivity.
Defined.
